(** * ClarityDesk: the research endpoint and the research form

    A shallow embedding of the TypeScript sources

    - [shared/research-schema.ts]: the result and status types;
    - [registerRoutes] (the second unit of [client/src/pages/home.tsx],
      lines 234-338): the Express route [POST /api/research], which
      validates the body, spawns the Python research runner, relays its
      output and arms an overall timeout;
    - [Home] (the first unit of [client/src/pages/home.tsx]): the React
      form, whose [handleSubmit] posts a query and tracks a
      [ResearchStatus], and the page it renders.

    The Python research runner that the route spawns is not among the
    sources; its Result Assembler is modelled from the specification, in
    [Pipeline].

    JavaScript values are an inductive type, exceptions are explicit
    ([Completion]), the mutable variables a request's closures share
    ([output], [error], the timer, the response object) are fields of one
    state record, and the callbacks Node runs later (stream data, process
    close, the timer) are steps over that record.  Console output is not part
    of the state. *)

From Stdlib Require Import ZArith QArith Qround String Ascii List Bool Lia.
Import ListNotations.

#[local] Set Warnings "-register-all,-notation-for-abbreviation".

Local Open Scope Z_scope.
Local Open Scope string_scope.
Local Open Scope list_scope.

(** ** JavaScript values *)

Module Js.

(** [JNum] is a finite number, a double, as the rational it is; [JInf] is
    [Infinity] or [-Infinity], which [JSON.parse] gives for a numeral out
    of range (1e999).  No JSON text denotes NaN; where a coercion gives a
    number that is not finite, the result is [None]. *)
Inductive JsValue : Type :=
| JUndefined
| JNull
| JBool (b : bool)
| JNum (q : Q)
| JInf (negative : bool)
| JStr (s : string)
| JArr (items : list JsValue)
| JObj (fields : list (string * JsValue)).

(** An [Error] instance: its [name] and its [message]. *)
Record JsError : Type := mkError { err_name : string; err_message : string }.

Inductive Completion (A : Type) : Type :=
| Normal (a : A)
| Throw (e : JsError).
Arguments Normal {A} a.
Arguments Throw {A} e.

(** ToBoolean. *)
Definition truthy (v : JsValue) : bool :=
  match v with
  | JUndefined | JNull => false
  | JBool b => b
  | JNum q => negb (Z.eqb (Qnum q) 0)
  | JStr s => negb (String.eqb s EmptyString)
  | JInf _ | JArr _ | JObj _ => true
  end.

(** [a || b] *)
Definition or_else (a b : JsValue) : JsValue := if truthy a then a else b.

(** [typeof v] *)
Definition typeof (v : JsValue) : string :=
  match v with
  | JUndefined => "undefined"
  | JNull | JArr _ | JObj _ => "object"
  | JBool _ => "boolean"
  | JNum _ | JInf _ => "number"
  | JStr _ => "string"
  end.

(** Own property of a parsed object; the first binding of a key is the
    object's value for it. *)
Fixpoint assoc (k : string) (fs : list (string * JsValue)) : JsValue :=
  match fs with
  | [] => JUndefined
  | (k', v) :: rest => if String.eqb k k' then v else assoc k rest
  end.

(** [v.k] on a value that is neither [null] nor [undefined], for the keys
    this program reads ([query], [options], [depth], [max_sources],
    [include_contact_info], [research_timeout], [error]), none of which is
    a prototype property: a primitive or an array has no such property. *)
Definition member (v : JsValue) (k : string) : JsValue :=
  match v with
  | JObj fs => assoc k fs
  | _ => JUndefined
  end.

(** [v.k]: reading from [null] or [undefined] throws. *)
Definition get (v : JsValue) (k : string) : Completion JsValue :=
  match v with
  | JUndefined =>
      Throw (mkError "TypeError"
               ("Cannot read properties of undefined (reading '" ++ k ++ "')"))
  | JNull =>
      Throw (mkError "TypeError"
               ("Cannot read properties of null (reading '" ++ k ++ "')"))
  | _ => Normal (member v k)
  end.

(** White space of [String.prototype.trim] among the code units 0..255. *)
Definition is_white_space (c : ascii) : bool :=
  let n := N_of_ascii c in
  N.leb 9 n && N.leb n 13 || N.eqb n 32 || N.eqb n 160.

Fixpoint trimStart (s : string) : string :=
  match s with
  | EmptyString => EmptyString
  | String c rest => if is_white_space c then trimStart rest else s
  end.

Definition reverse (s : string) : string :=
  string_of_list_ascii (rev (list_ascii_of_string s)).

Definition trimEnd (s : string) : string := reverse (trimStart (reverse s)).

Definition trim (s : string) : string := trimEnd (trimStart s).

(** [needle] occurs in [hay]. *)
Fixpoint includes (needle hay : string) : bool :=
  String.prefix needle hay ||
  match hay with
  | EmptyString => false
  | String _ rest => includes needle rest
  end.

(** [k] is an own property of a parsed object. *)
Definition has_own (k : string) (fs : list (string * JsValue)) : bool :=
  existsb (fun kv => String.eqb k (fst kv)) fs.

(** What ToPrimitive throws for an object none of whose [toString] and
    [valueOf] gives a primitive. *)
Definition not_primitive : JsError :=
  mkError "TypeError" "Cannot convert object to primitive value".

Section Coercion.

(** Number::toString, the text of a finite number. *)
Variable NumberToString : Q -> string.

(** StringToNumber, the number a text denotes; [None] stands for a result
    that is not finite (NaN, [Infinity], [-Infinity]). *)
Variable StringToNumber : string -> option Q.

(** The double nearest to a real number; [None] when that is beyond the
    finite doubles. *)
Variable round : Q -> option Q.

(** ToString of a value that came from [JSON.parse].  Its objects have the
    methods of [Object.prototype] and data properties only: an own
    [toString] is never callable, and [valueOf] gives back the object, so
    ToPrimitive throws exactly for an object with an own [toString].  An
    array is joined: [Array.prototype.join] writes nothing for [null] and
    [undefined]. *)
Fixpoint ToString (v : JsValue) : Completion string :=
  match v with
  | JUndefined => Normal "undefined"
  | JNull => Normal "null"
  | JBool b => Normal (if b then "true" else "false")
  | JNum q => Normal (NumberToString q)
  | JInf negative => Normal (if negative then "-Infinity" else "Infinity")
  | JStr s => Normal s
  | JArr items =>
      (fix join (l : list JsValue) : Completion string :=
         match l with
         | [] => Normal EmptyString
         | x :: rest =>
             match (match x with
                    | JUndefined | JNull => Normal EmptyString
                    | _ => ToString x
                    end) with
             | Throw e => Throw e
             | Normal first =>
                 match rest with
                 | [] => Normal first
                 | _ :: _ =>
                     match join rest with
                     | Throw e => Throw e
                     | Normal more => Normal (first ++ "," ++ more)%string
                     end
                 end
             end
         end) items
  | JObj fields =>
      if has_own "toString" fields then Throw not_primitive
      else Normal "[object Object]"
  end.

(** ToNumber of a value that came from [JSON.parse]; [None] stands for a
    result that is not finite.  An object without an own [toString] is
    "[object Object]", hence NaN. *)
Definition ToNumber (v : JsValue) : Completion (option Q) :=
  match v with
  | JUndefined => Normal None
  | JNull => Normal (Some (0 # 1))
  | JBool b => Normal (Some (if b then 1 # 1 else 0 # 1))
  | JNum q => Normal (Some q)
  | JInf _ => Normal None
  | JStr s => Normal (StringToNumber s)
  | JArr _ =>
      match ToString v with
      | Normal s => Normal (StringToNumber s)
      | Throw e => Throw e
      end
  | JObj fields =>
      if has_own "toString" fields then Throw not_primitive else Normal None
  end.

(** An integer of magnitude at most 2^53: every such number is a double. *)
Definition safe_integer (x : Q) : bool :=
  Z.eqb (Qnum x mod Z.pos (Qden x)) 0
  && Z.leb (Z.abs (Qnum x)) (9007199254740992 * Z.pos (Qden x)).

(** The double an arithmetic operation gives for the exact result [x]. *)
Definition to_double (x : Q) : option Q :=
  if safe_integer x then Some x else round x.

(** [v * k] for a finite number [k]: the operand is converted, which may
    throw, and the product of two doubles is the double nearest to their
    exact product. *)
Definition times (v : JsValue) (k : Q) : Completion (option Q) :=
  match ToNumber v with
  | Normal (Some q) => Normal (to_double (q * k))
  | Normal None => Normal None
  | Throw e => Throw e
  end.

End Coercion.



(** [JSON.parse(JSON.stringify(v))], the value a JSON text written from [v]
    denotes: a number that is not finite is written as [null], [undefined]
    is written as [null] in an array and left out of an object.  (At the
    top, [undefined] has no text.) *)
Fixpoint wire (v : JsValue) : JsValue :=
  match v with
  | JInf _ => JNull
  | JArr items =>
      JArr (map (fun item => match wire item with
                             | JUndefined => JNull
                             | w => w
                             end) items)
  | JObj fields =>
      JObj ((fix members (fs : list (string * JsValue)) :=
               match fs with
               | [] => []
               | (k, x) :: rest =>
                   match wire x with
                   | JUndefined => members rest
                   | w => (k, w) :: members rest
                   end
               end) fields)
  | other => other
  end.

End Js.
Import Js.

(** ** shared/research-schema.ts *)

Module Schema.

Inductive StatusTag : Type :=
| starting | expanding | searching | scraping
| ranking | synthesizing | complete | error.

Definition tag_name (t : StatusTag) : string :=
  match t with
  | starting => "starting" | expanding => "expanding"
  | searching => "searching" | scraping => "scraping"
  | ranking => "ranking" | synthesizing => "synthesizing"
  | complete => "complete" | error => "error"
  end.

(** [interface ResearchStatus] *)
Record ResearchStatus : Type := mkStatus {
  status : StatusTag;
  message : string;
  progress : option Q
}.

(** The members of the [status] union. *)
Definition status_tags : list string :=
  ["starting"; "expanding"; "searching"; "scraping";
   "ranking"; "synthesizing"; "complete"; "error"].

(** [progress], when present, is a percentage. *)
Definition progress_in_range (s : ResearchStatus) : Prop :=
  match progress s with
  | None => True
  | Some p => (0 <= p)%Q /\ (p <= 100)%Q
  end.

Definition is_string (v : JsValue) : bool := String.eqb (typeof v) "string".
Definition is_number (v : JsValue) : bool := String.eqb (typeof v) "number".

Definition is_array_of (p : JsValue -> bool) (v : JsValue) : bool :=
  match v with
  | JArr items => forallb p items
  | _ => false
  end.

(** [interface ResearchSource]: seven required members, [last_updated]
    optional. *)
Definition is_ResearchSource (v : JsValue) : bool :=
  match v with
  | JObj fs =>
      is_string (assoc "title" fs) && is_string (assoc "url" fs)
      && is_number (assoc "relevance_score" fs)
      && is_string (assoc "key_findings" fs)
      && is_string (assoc "domain" fs)
      && (match assoc "last_updated" fs with
          | JUndefined => true
          | u => is_string u
          end)
      && is_number (assoc "content_length" fs)
      && is_number (assoc "quality_score" fs)
  | _ => false
  end.

(** [interface ResearchMetadata] *)
Definition is_ResearchMetadata (v : JsValue) : bool :=
  match v with
  | JObj fs =>
      is_number (assoc "sources_searched" fs)
      && is_number (assoc "sources_processed" fs)
      && is_number (assoc "research_time_seconds" fs)
      && is_number (assoc "confidence_score" fs)
      && is_string (assoc "query_type" fs)
      && is_array_of is_string (assoc "sub_questions" fs)
  | _ => false
  end.

(** [interface ResearchResult] *)
Definition is_ResearchResult (v : JsValue) : bool :=
  match v with
  | JObj fs =>
      is_string (assoc "query" fs) && is_string (assoc "answer" fs)
      && is_ResearchMetadata (assoc "research_metadata" fs)
      && is_array_of is_ResearchSource (assoc "sources" fs)
      && is_array_of is_string (assoc "follow_up_suggestions" fs)
  | _ => false
  end.

End Schema.
Import Schema.

(** ** [registerRoutes]: the route [POST /api/research] *)

Module Server.

(** A call [res.status(code).json(payload)]: the status and the value that
    [res.json] writes with [JSON.stringify]; [res.json] alone sends 200. *)
Record Response : Type := mkResponse { code : Z; payload : JsValue }.

(** [researchOptions] *)
Record ResearchOptions : Type := mkOptions {
  depth : JsValue;
  max_sources : JsValue;
  include_contact_info : JsValue;
  research_timeout : JsValue
}.

(** [requestData] *)
Record RequestData : Type := mkRequest {
  query : JsValue;
  options : ResearchOptions
}.

(** What the child reads from its stdin, [JSON.stringify(requestData)], as
    the value that text denotes.  The four options are truthy or a default,
    never [undefined], so no member is left out. *)
Definition stdin_data (rd : RequestData) : RequestData :=
  mkRequest (wire (query rd))
    (mkOptions (wire (depth (options rd)))
               (wire (max_sources (options rd)))
               (wire (include_contact_info (options rd)))
               (wire (research_timeout (options rd)))).

(** A chunk of a stream: the bytes of a Node [Buffer]. *)
Definition Buffer : Type := list Byte.byte.

(** The handle [setTimeout] returned: pending with its due time (ms), run,
    or cancelled by [clearTimeout]. *)
Inductive Timer : Type :=
| Unset
| Armed (due : Z)
| Fired
| Cleared.

(** One request: the response object, the child process and the variables
    the handler's closures share. *)
Record State : Type := mkState {
  calls : list Response;          (* every [res.json] call, oldest first *)
  uncaught : list JsError;        (* exceptions that escaped a callback *)
  spawned : option RequestData;   (* the child, by what its stdin received *)
  output : string;
  error : string;
  killed : bool;                  (* [pythonProcess.kill()] was called *)
  closed : bool;                  (* the child's [close] event was emitted *)
  timer : Timer
}.

Definition init : State :=
  mkState [] [] None EmptyString EmptyString false false Unset.

(** The response the client receives: the first one sent. *)
Definition delivered (st : State) : option Response := hd_error (calls st).

(** Computations over the request state that may throw. *)
Definition M (A : Type) : Type := State -> Completion A * State.

Definition ret {A} (a : A) : M A := fun st => (Normal a, st).

Definition bind {A B} (m : M A) (k : A -> M B) : M B :=
  fun st =>
    match m st with
    | (Normal a, st') => k a st'
    | (Throw e, st') => (Throw e, st')
    end.

Definition lift {A} (c : Completion A) : M A := fun st => (c, st).

Definition modify (f : State -> State) : M unit := fun st => (Normal tt, f st).

Definition read : M State := fun st => (Normal st, st).

(** [try { m } catch (e) { h e }] *)
Definition try_catch {A} (m : M A) (h : JsError -> M A) : M A :=
  fun st =>
    match m st with
    | (Throw e, st') => h e st'
    | done => done
    end.

Declare Scope js_scope.
Delimit Scope js_scope with js.
Notation "x <- m ;; k" := (bind m (fun x => k))
  (at level 61, m at next level, right associativity) : js_scope.
Notation "m ;; k" := (bind m (fun _ => k))
  (at level 61, right associativity) : js_scope.
Local Open Scope js_scope.

Definition ERR_HTTP_HEADERS_SENT : JsError :=
  mkError "Error" "Cannot set headers after they are sent to the client".

(** [res.status(code).json(payload)]: Express sends once; a later call
    throws when it sets its headers. *)
Definition res_json (r : Response) : M unit :=
  fun st =>
    let st' := mkState (calls st ++ [r]) (uncaught st) (spawned st)
                 (output st) (error st) (killed st) (closed st) (timer st) in
    match calls st with
    | [] => (Normal tt, st')
    | _ :: _ => (Throw ERR_HTTP_HEADERS_SENT, st')
    end.

Definition error_body (msg : string) : JsValue := JObj [("error", JStr msg)].

Definition error_details (msg : string) (details : JsValue) : JsValue :=
  JObj [("error", JStr msg); ("details", details)].

(** [const { query, options = {} } = req.body] *)
Definition destructure (body : JsValue) : Completion (JsValue * JsValue) :=
  match body with
  | JUndefined =>
      Throw (mkError "TypeError"
        "Cannot destructure property 'query' of 'req.body' as it is undefined.")
  | JNull =>
      Throw (mkError "TypeError"
        "Cannot destructure property 'query' of 'req.body' as it is null.")
  | _ =>
      Normal (member body "query",
              match member body "options" with
              | JUndefined => JObj []
              | o => o
              end)
  end.

(** [spawn("python3", [scriptPath], ...)], then
    [stdin.write(JSON.stringify(requestData))] and [stdin.end()]; [output]
    and [error] start empty. *)
Definition spawn (requestData : RequestData) : M unit :=
  modify (fun st =>
    mkState (calls st) (uncaught st) (Some (stdin_data requestData))
      EmptyString EmptyString false false (timer st)).

Definition TIMEOUT_MAX : Q := 2147483647 # 1.

(** Node's [setTimeout(f, delay)]: a delay that is not finite ([None]),
    below 1 or above TIMEOUT_MAX becomes 1 ms, others are truncated to an
    integer. *)
Definition timer_delay (delay : option Q) : Z :=
  match delay with
  | Some d =>
      if Qle_bool (1 # 1) d && Qle_bool d TIMEOUT_MAX then Qfloor d else 1
  | None => 1
  end.

Definition setTimeout (now : Z) (delay : option Q) : M unit :=
  modify (fun st =>
    mkState (calls st) (uncaught st) (spawned st) (output st) (error st)
      (killed st) (closed st) (Armed (now + timer_delay delay))).

Section Route.

(** [JSON.parse]: the value, or the [SyntaxError] it throws. *)
Variable JSON_parse : string -> Completion JsValue.

(** [data.toString()]: the bytes of one chunk decoded as UTF-8, on their
    own; bytes that are no complete character there become U+FFFD. *)
Variable Buffer_toString : Buffer -> string.

Variable NumberToString : Q -> string.
Variable StringToNumber : string -> option Q.
Variable round : Q -> option Q.

Local Notation times := (Js.times NumberToString StringToNumber round).

(** The [try] block of the route, run at time [now] (ms): validation,
    defaults, spawn, timer.  The listeners it registers are [emit] below.
    The delay of the timer is computed after the spawn, and
    [research_timeout * 1000] throws for a timeout that has no primitive
    value. *)
Definition research_try (now : Z) (body : JsValue) : M unit :=
  qo <- lift (destructure body) ;;
  let query := fst qo in
  let options := snd qo in
  if negb (truthy query) || negb (String.eqb (typeof query) "string")
  then
    res_json (mkResponse 400
                (error_body "Query is required and must be a string"))
  else
    d <- lift (get options "depth") ;;
    m <- lift (get options "max_sources") ;;
    c <- lift (get options "include_contact_info") ;;
    t <- lift (get options "research_timeout") ;;
    let researchOptions :=
      mkOptions (or_else d (JStr "standard"))
                (or_else m (JNum (20 # 1)))
                (or_else c (JBool false))
                (or_else t (JNum (300 # 1))) in
    let requestData := mkRequest query researchOptions in
    spawn requestData ;;
    delay <- lift (times (research_timeout researchOptions) (1000 # 1)) ;;
    setTimeout now delay.

(** The handler: the [try] block and its [catch]. *)
Definition research_route (now : Z) (body : JsValue) : M unit :=
  try_catch (research_try now body)
    (fun error =>
       res_json (mkResponse 500
                   (error_details "Internal server error"
                      (JStr (err_message error))))).

(** [pythonProcess.stdout.on("data", ...)] *)
Definition on_stdout (data : Buffer) : M unit :=
  modify (fun st =>
    mkState (calls st) (uncaught st) (spawned st)
      (output st ++ Buffer_toString data)
      (error st) (killed st) (closed st) (timer st)).

(** [pythonProcess.stderr.on("data", ...)] *)
Definition on_stderr (data : Buffer) : M unit :=
  modify (fun st =>
    mkState (calls st) (uncaught st) (spawned st) (output st)
      (error st ++ Buffer_toString data) (killed st) (closed st) (timer st)).

(** [code !== 0]; a child ended by a signal closes with [null]. *)
Definition nonzero (exit_code : option Z) : bool :=
  match exit_code with
  | Some 0 => false
  | _ => true
  end.

(** The first [close] listener: relay the result or report the failure. *)
Definition on_close_respond (exit_code : option Z) : M unit :=
  st <- read ;;
  if nonzero exit_code
  then
    res_json (mkResponse 500
                (error_details "Research process failed"
                   (or_else (JStr (error st))
                            (JStr "Unknown error occurred"))))
  else
    try_catch
      (result <- lift (JSON_parse (output st)) ;;
       res_json (mkResponse 200 result))
      (fun parseError =>
         res_json (mkResponse 500
                     (error_details "Failed to parse research results"
                        (JStr (err_message parseError))))).

(** The second [close] listener: [clearTimeout(timeout)], which does
    nothing to a timer that already ran.  (Where the route threw before it
    registered this listener there is no timer, and the first listener
    throws before this one would run.) *)
Definition on_close_clear : M unit :=
  modify (fun st =>
    mkState (calls st) (uncaught st) (spawned st) (output st) (error st)
      (killed st) (closed st)
      (match timer st with
       | Armed _ => Cleared
       | other => other
       end)).

(** The timer's callback. *)
Definition on_timeout : M unit :=
  modify (fun st =>
    mkState (calls st) (uncaught st) (spawned st) (output st) (error st)
      true (closed st) Fired) ;;
  res_json (mkResponse 408 (error_body "Research request timed out")).

(** Node runs a callback to its end; an exception that escapes it is an
    uncaught exception of the process. *)
Definition run_callback (m : M unit) (st : State) : State :=
  match m st with
  | (Normal _, st') => st'
  | (Throw e, st') =>
      mkState (calls st') (uncaught st' ++ [e]) (spawned st') (output st')
        (error st') (killed st') (closed st') (timer st')
  end.

(** What the child process emits. *)
Inductive ProcEvent : Type :=
| StdoutData (data : Buffer)
| StderrData (data : Buffer)
| Close (exit_code : option Z).

(** [emit]: the listeners of an event in registration order; a listener
    that throws ends the emit. *)
Definition emit (ev : ProcEvent) : M unit :=
  match ev with
  | StdoutData data => on_stdout data
  | StderrData data => on_stderr data
  | Close exit_code =>
      modify (fun st =>
        mkState (calls st) (uncaught st) (spawned st) (output st)
          (error st) (killed st) true (timer st)) ;;
      on_close_respond exit_code ;;
      on_close_clear
  end.

(** The timer runs once the clock has reached its due time. *)
Definition tick (now : Z) (st : State) : State :=
  match timer st with
  | Armed due => if Z.leb due now then run_callback on_timeout st else st
  | _ => st
  end.

(** One turn of the event loop at time [now]: due timers first, then the
    child's event.  A child that was never spawned or has closed emits
    nothing. *)
Definition step (st : State) (timed : Z * ProcEvent) : State :=
  let st1 := tick (fst timed) st in
  match spawned st1 with
  | None => st1
  | Some _ =>
      if closed st1 then st1 else run_callback (emit (snd timed)) st1
  end.

(** The request: the route at [now], then the child's events. *)
Definition handle (now : Z) (body : JsValue) : State :=
  run_callback (research_route now body) init.

Definition run (now : Z) (body : JsValue) (events : list (Z * ProcEvent))
  : State :=
  fold_left step events (handle now body).

(** With no further event from the child, a pending timer still runs. *)
Definition settle (st : State) : State :=
  match timer st with
  | Armed due => tick due st
  | _ => st
  end.

End Route.

End Server.

(** ** [Home]: the form and [handleSubmit] *)

Module Client.

(** The component's [useState] cells, with the effects of a submit that
    leave it: the bodies posted to [/api/research] and every [setStatus]
    call, oldest first. *)
Record State : Type := mkState {
  query : string;
  isLoading : bool;
  result : option JsValue;
  status : option ResearchStatus;
  posted : list JsValue;
  statuses : list ResearchStatus
}.

Definition initial (q : string) : State := mkState q false None None [] [].

(** What a [catch] clause can receive. *)
Inductive Thrown : Type :=
| ThrownError (e : JsError)     (* [error instanceof Error] *)
| ThrownOther.

(** How [fetch] and then [response.json()] settle. *)
Inductive FetchOutcome : Type :=
| Rejected (reason : Thrown)
| Resolved (ok : bool) (json : Completion JsValue).

Definition setIsLoading (b : bool) (st : State) : State :=
  mkState (query st) b (result st) (status st) (posted st) (statuses st).

Definition setResult (r : option JsValue) (st : State) : State :=
  mkState (query st) (isLoading st) r (status st) (posted st) (statuses st).

Definition setStatus (s : ResearchStatus) (st : State) : State :=
  mkState (query st) (isLoading st) (result st) (Some s) (posted st)
    (statuses st ++ [s]).

Definition post (body : JsValue) (st : State) : State :=
  mkState (query st) (isLoading st) (result st) (status st)
    (posted st ++ [body]) (statuses st).

(** The body of the [fetch] call. *)
Definition request_body (q : string) : JsValue :=
  JObj [("query", JStr q);
        ("options",
         JObj [("depth", JStr "standard");
               ("max_sources", JNum (15 # 1));
               ("include_contact_info", JBool false);
               ("research_timeout", JNum (120 # 1))])].

Section Submit.

Variable NumberToString : Q -> string.

Local Notation ToString := (Js.ToString NumberToString).

(** The [try] block after the [fetch]: the state it reaches, or what it
    throws.  [new Error(message)] converts its argument with ToString,
    which throws in its turn for an object that has no primitive value. *)
Definition receive (outcome : FetchOutcome) (st : State) : Thrown + State :=
  match outcome with
  | Rejected reason => inl reason
  | Resolved false json =>
      match json with
      | Throw e => inl (ThrownError e)
      | Normal errorData =>
          match get errorData "error" with
          | Throw e => inl (ThrownError e)
          | Normal msg =>
              match ToString (or_else msg (JStr "Research failed")) with
              | Normal text => inl (ThrownError (mkError "Error" text))
              | Throw e => inl (ThrownError e)
              end
          end
      end
  | Resolved true json =>
      match json with
      | Throw e => inl (ThrownError e)
      | Normal researchResult =>
          inr (setStatus (mkStatus complete "Research complete!" None)
                 (setResult (Some researchResult) st))
      end
  end.

Definition handleSubmit (outcome : FetchOutcome) (st : State) : State :=
  if String.eqb (trim (query st)) EmptyString then st
  else
    let st1 :=
      setStatus (mkStatus starting "Initializing research..." None)
        (setResult None (setIsLoading true st)) in
    let st2 := post (request_body (query st)) st1 in
    let st3 :=
      match receive outcome st2 with
      | inr done => done
      | inl thrown =>
          setStatus
            (mkStatus error
               match thrown with
               | ThrownError e => err_message e
               | ThrownOther => "Research failed. Please try again."
               end
               None)
            st2
      end in
    setIsLoading false st3.

End Submit.

End Client.

(** ** The research runner, seen from the route *)

Module Pipeline.

(** Modelled from the spec: the Result Assembler of the Python pipeline
    ([server/research_runner.py] and what it imports), which "computes
    research_time_seconds from wall-clock span of the whole pipeline";
    [started] and [finished] are the pipeline's first and last instants
    in ms. *)
Definition research_time_seconds (started finished : Z) : Q :=
  Qmake (finished - started) 1000.

(** Modelled from the spec: a ScoredDocument of the Ranker (section 3), a
    "Document + relevance_score [0,1], quality_score [0,1], key_findings",
    the Document being a CandidateLink, with its URL, and the "extracted
    title, body text, content length, detected publish/update date,
    domain". *)
Record ScoredDocument : Type := mkDocument {
  url : string;
  title : string;
  body : string;
  content_length : N;
  published : option string;
  domain : string;
  relevance_score : Q;
  quality_score : Q;
  key_findings : string
}.

(** Modelled from the spec: what the stages of one pipeline run hand to the
    Result Assembler (sections 4.1 to 4.6): the request's query, the
    Expander's sub-queries, the counts of the Retriever and of the Fetcher,
    the Ranker's selection in rank order, the Synthesizer's finalized
    answer, the confidence computed from the citations (its formula is left
    open, section 9), and the follow-up suggestions.  The pipeline reads
    the clock when it begins and again [elapsed] ms later, when the
    Assembler computes the span; its stages run one after another in
    between. *)
Record Run : Type := mkRun {
  query : string;
  sub_questions : list string;
  query_type : string;
  sources_searched : N;
  sources_processed : N;
  ranked : list ScoredDocument;
  answer : string;
  confidence_score : Q;
  follow_up_suggestions : list string;
  started : Z;
  elapsed : N
}.

(** Modelled from the spec: the instant at which the Assembler reads the
    clock. *)
Definition finished (r : Run) : Z := started r + Z.of_N (elapsed r).


(** Modelled from the spec: the projection of a ScoredDocument that a
    result lists among its [sources]; it has the members that
    [interface ResearchSource] requires. *)
Definition project (d : ScoredDocument) : JsValue :=
  JObj [("title", JStr (title d));
        ("url", JStr (url d));
        ("relevance_score", JNum (relevance_score d));
        ("key_findings", JStr (key_findings d));
        ("domain", JStr (domain d));
        ("content_length", JNum (Z.of_N (content_length d) # 1));
        ("quality_score", JNum (quality_score d))].

(** Modelled from the spec: the ResearchResult the Result Assembler builds
    (sections 3 and 4.6), "query, answer, research_metadata
    (sources_searched, sources_processed, research_time_seconds,
    confidence_score, query_type, sub_questions), sources (ordered list of
    ScoredDocument projections), follow_up_suggestions", which the runner
    prints as JSON on its stdout. *)
Definition assemble (r : Run) : JsValue :=
  JObj [("query", JStr (query r));
        ("answer", JStr (answer r));
        ("research_metadata",
         JObj [("sources_searched", JNum (Z.of_N (sources_searched r) # 1));
               ("sources_processed",
                JNum (Z.of_N (sources_processed r) # 1));
               ("research_time_seconds",
                JNum (research_time_seconds (started r) (finished r)));
               ("confidence_score", JNum (confidence_score r));
               ("query_type", JStr (query_type r));
               ("sub_questions", JArr (map JStr (sub_questions r)))]);
        ("sources", JArr (map project (ranked r)));
        ("follow_up_suggestions",
         JArr (map JStr (follow_up_suggestions r)))].

End Pipeline.

(** ** The responses of the route and the states a request reaches *)

Module Outcome.
Import Server.

Definition invalid_request : Response :=
  mkResponse 400 (error_body "Query is required and must be a string").

Definition internal_error (msg : string) : Response :=
  mkResponse 500 (error_details "Internal server error" (JStr msg)).

Definition request_timeout : Response :=
  mkResponse 408 (error_body "Research request timed out").

Definition process_failed (stderr : string) : Response :=
  mkResponse 500
    (error_details "Research process failed"
       (or_else (JStr stderr) (JStr "Unknown error occurred"))).

Definition parse_failed (msg : string) : Response :=
  mkResponse 500 (error_details "Failed to parse research results" (JStr msg)).

Definition success (result : JsValue) : Response := mkResponse 200 result.

(** The request data the route builds from [query] and [options]. *)
Definition request_of (query options : JsValue) : RequestData :=
  mkRequest query
    (mkOptions (or_else (member options "depth") (JStr "standard"))
               (or_else (member options "max_sources") (JNum (20 # 1)))
               (or_else (member options "include_contact_info") (JBool false))
               (or_else (member options "research_timeout") (JNum (300 # 1)))).

(** Answered by the route itself, no child. *)
Definition rejected (r : Response) : State :=
  mkState [r] [] None EmptyString EmptyString false false Unset.

(** Child running, timer pending, nothing sent. *)
Definition running (rd : RequestData) (due : Z) (out err : string) : State :=
  mkState [] [] (Some rd) out err false false (Armed due).

(** Timer ran: child killed, 408 sent, child not yet closed. *)
Definition timed_out (rd : RequestData) (out err : string) : State :=
  mkState [request_timeout] [] (Some rd) out err true false Fired.

(** Child running without a timer: the route threw after the spawn and its
    [catch] has answered [r]. *)
Definition orphaned (rd : RequestData) (r : Response) (out err : string)
  : State :=
  mkState [r] [] (Some rd) out err false false Unset.

Section Closing.

Variable JSON_parse : string -> Completion JsValue.

(** What the first [close] listener sends when nothing was sent before. *)
Definition close_response (exit_code : option Z) (out err : string)
  : Response :=
  if nonzero exit_code then process_failed err
  else match JSON_parse out with
       | Normal result => success result
       | Throw e => parse_failed (err_message e)
       end.

(** What it calls [res.json] with when a response was sent before. *)
Definition late_calls (exit_code : option Z) (out err : string)
  : list Response :=
  if nonzero exit_code then [process_failed err]
  else match JSON_parse out with
       | Normal result =>
           [success result;
            parse_failed (err_message ERR_HTTP_HEADERS_SENT)]
       | Throw e => [parse_failed (err_message e)]
       end.

(** Child closed before the timer ran. *)
Definition completed (rd : RequestData) (out err : string)
  (exit_code : option Z) : State :=
  mkState [close_response exit_code out err] [] (Some rd) out err
    false true Cleared.

(** Child closed after the timer ran. *)
Definition closed_late (rd : RequestData) (out err : string)
  (exit_code : option Z) : State :=
  mkState (request_timeout :: late_calls exit_code out err)
    [ERR_HTTP_HEADERS_SENT] (Some rd) out err true true Fired.

(** That child closed: the first [close] listener has called [res.json]
    on the answered request. *)
Definition orphan_closed (rd : RequestData) (r : Response)
  (out err : string) (exit_code : option Z) : State :=
  mkState (r :: late_calls exit_code out err) [ERR_HTTP_HEADERS_SENT]
    (Some rd) out err false true Unset.

(** The states of a request whose child runs without a timer. *)
Inductive Orphaned (rd : RequestData) (r : Response) : State -> Prop :=
| orphaned_running (out err : string) :
    Orphaned rd r (orphaned rd r out err)
| orphaned_closed (out err : string) (exit_code : option Z) :
    Orphaned rd r (orphan_closed rd r out err exit_code).

(** The states of a request whose timer was armed. *)
Inductive Reached (rd : RequestData) (due : Z) : State -> Prop :=
| reached_running (out err : string) :
    Reached rd due (running rd due out err)
| reached_timed_out (out err : string) :
    Reached rd due (timed_out rd out err)
| reached_completed (out err : string) (exit_code : option Z) :
    Reached rd due (completed rd out err exit_code)
| reached_closed_late (out err : string) (exit_code : option Z) :
    Reached rd due (closed_late rd out err exit_code).

End Closing.

Section Deadline.

Variable NumberToString : Q -> string.
Variable StringToNumber : string -> option Q.
Variable round : Q -> option Q.

(** When the timer of a request run at [now] with the data [rd] is due;
    [now] itself where [research_timeout * 1000] throws and no timer is
    armed. *)
Definition deadline (now : Z) (rd : RequestData) : Z :=
  match times NumberToString StringToNumber round
          (research_timeout (options rd)) (1000 # 1) with
  | Normal delay => now + timer_delay delay
  | Throw _ => now
  end.

End Deadline.

(** The first [close] of a trace, with its time. *)
Fixpoint first_close (events : list (Z * ProcEvent))
  : option (Z * option Z) :=
  match events with
  | [] => None
  | (t, Close exit_code) :: _ => Some (t, exit_code)
  | _ :: rest => first_close rest
  end.

Section Decoding.

Variable Buffer_toString : Buffer -> string.

(** The chunks the child wrote to stdout before it closed, each decoded on
    its own, one after another. *)
Fixpoint stdout_until_close (events : list (Z * ProcEvent)) : string :=
  match events with
  | [] => EmptyString
  | (_, Close _) :: _ => EmptyString
  | (_, StdoutData data) :: rest =>
      Buffer_toString data ++ stdout_until_close rest
  | (_, StderrData _) :: rest => stdout_until_close rest
  end.

(** The chunks the child wrote to stderr before it closed, each decoded on
    its own, one after another. *)
Fixpoint stderr_until_close (events : list (Z * ProcEvent)) : string :=
  match events with
  | [] => EmptyString
  | (_, Close _) :: _ => EmptyString
  | (_, StderrData data) :: rest =>
      Buffer_toString data ++ stderr_until_close rest
  | (_, StdoutData _) :: rest => stderr_until_close rest
  end.

End Decoding.

(** The [error] messages the route can send. *)
Definition error_messages : list string :=
  ["Query is required and must be a string";
   "Research request timed out";
   "Research process failed";
   "Failed to parse research results";
   "Internal server error"].

Section Failures.

Variable JSON_parse : string -> Completion JsValue.
Variable Buffer_toString : Buffer -> string.
Variable NumberToString : Q -> string.
Variable StringToNumber : string -> option Q.
Variable round : Q -> option Q.

Variables (now : Z) (body : JsValue) (events : list (Z * ProcEvent)).

(** The failure responses of a request, with the [details] each one
    carries: the child's decoded stderr, the message of the exception
    [JSON.parse] threw on the child's decoded stdout, the message of the
    exception [res.json] threw on a parsed result because a response had
    been sent, or the message of the exception the route's [try] block
    threw. *)
Inductive Failure : Response -> Prop :=
| failure_invalid_request : Failure invalid_request
| failure_timeout : Failure request_timeout
| failure_process :
    Failure (process_failed (stderr_until_close Buffer_toString events))
| failure_parse (e : JsError) :
    JSON_parse (stdout_until_close Buffer_toString events) = Throw e ->
    Failure (parse_failed (err_message e))
| failure_parse_resend (result : JsValue) :
    JSON_parse (stdout_until_close Buffer_toString events) = Normal result ->
    Failure (parse_failed (err_message ERR_HTTP_HEADERS_SENT))
| failure_internal (e : JsError) (st : State) :
    research_try NumberToString StringToNumber round now body init
    = (Throw e, st) ->
    Failure (internal_error (err_message e)).

End Failures.

End Outcome.

(** ** The spec's wording, as predicates to compare the route with *)

Module Claimed.
Import Server.

Definition is_positive_integer (v : JsValue) : bool :=
  match v with
  | JNum q => Pos.eqb (Qden (Qred q)) 1 && Z.ltb 0 (Qnum q)
  | _ => false
  end.

Definition is_boolean (v : JsValue) : bool :=
  match v with
  | JBool _ => true
  | _ => false
  end.

Definition is_depth (v : JsValue) : bool :=
  match v with
  | JStr s =>
      String.eqb s "quick" || String.eqb s "standard" || String.eqb s "deep"
  | _ => false
  end.

(** "query: non-empty string, options: depth in quick, standard, deep;
    max_sources: positive integer; include_contact_info: boolean;
    research_timeout: positive integer" *)
Definition request_shape (rd : RequestData) : bool :=
  is_string (query rd) && truthy (query rd)
  && is_depth (depth (options rd))
  && is_positive_integer (max_sources (options rd))
  && is_boolean (include_contact_info (options rd))
  && is_positive_integer (research_timeout (options rd)).


(** The strings a response body carries at its top level. *)
Definition texts (r : Response) : list string :=
  match payload r with
  | JObj fs =>
      flat_map (fun kv => match snd kv with
                          | JStr s => [s]
                          | _ => []
                          end) fs
  | _ => []
  end.

(** Some text of the response contains [fragment]. *)
Definition discloses (fragment : string) (r : Response) : bool :=
  existsb (includes fragment) (texts r).

(** "a machine-readable kind and human message" *)
Definition has_kind_and_message (r : Response) : bool :=
  is_string (member (payload r) "kind")
  && (is_string (member (payload r) "message")
      || is_string (member (payload r) "error")).

End Claimed.

(** ** Stand-ins for the platform functions, to run the model on examples *)

Module Sample.

(** A pipeline run of 1250 ms that ranked one document. *)
Definition france : Pipeline.ScoredDocument :=
  Pipeline.mkDocument "https://example.org/france" "France"
    "Paris is the capital and largest city of France." 2048 None
    "example.org" (1 # 2) (1 # 4) "Paris is the capital.".

Definition paris_run : Pipeline.Run :=
  Pipeline.mkRun "x" ["x"] "factual" 3 1 [france] "Paris [1]." (3 # 4) []
    10 1250.

Definition quoted (s : string) : string :=
  String "034"%char s ++ String "034"%char EmptyString.

Definition pair_text (k v : string) : string := quoted k ++ ":" ++ v.

(** The JSON text of the result of [paris_run]. *)
Definition paris_text : string :=
  "{" ++ pair_text "query" (quoted "x")
  ++ "," ++ pair_text "answer" (quoted "Paris [1].")
  ++ "," ++ pair_text "research_metadata"
       ("{" ++ pair_text "sources_searched" "3"
        ++ "," ++ pair_text "sources_processed" "1"
        ++ "," ++ pair_text "research_time_seconds" "1.25"
        ++ "," ++ pair_text "confidence_score" "0.75"
        ++ "," ++ pair_text "query_type" (quoted "factual")
        ++ "," ++ pair_text "sub_questions" ("[" ++ quoted "x" ++ "]")
        ++ "}")
  ++ "," ++ pair_text "sources"
       ("[{" ++ pair_text "title" (quoted "France")
        ++ "," ++ pair_text "url" (quoted "https://example.org/france")
        ++ "," ++ pair_text "relevance_score" "0.5"
        ++ "," ++ pair_text "key_findings" (quoted "Paris is the capital.")
        ++ "," ++ pair_text "domain" (quoted "example.org")
        ++ "," ++ pair_text "content_length" "2048"
        ++ "," ++ pair_text "quality_score" "0.25"
        ++ "}]")
  ++ "," ++ pair_text "follow_up_suggestions" "[]"
  ++ "}".

(** Agrees with [JSON.parse] on the texts the examples below use. *)
Definition JSON_parse (text : string) : Completion JsValue :=
  if String.eqb text "{}" then Normal (JObj [])
  else if String.eqb text "[]" then Normal (JArr [])
  else if String.eqb text paris_text
       then Normal (Pipeline.assemble paris_run)
       else Throw (mkError "SyntaxError" "Unexpected end of JSON input").

(** Agrees with [data.toString()] on chunks of ASCII text, which are what
    the examples below use. *)
Definition Buffer_toString (data : Server.Buffer) : string :=
  string_of_list_byte data.

(** The bytes of an ASCII text. *)
Definition bytes (text : string) : Server.Buffer := list_byte_of_string text.

(** Not consulted by the examples: their error messages are strings and
    their timeouts numbers or objects. *)
Definition NumberToString (_ : Q) : string := "0".

Definition StringToNumber (_ : string) : option Q := None.

(** Exact: the products of the examples are integers, which are
    doubles. *)
Definition round (x : Q) : option Q := Some x.

Import Server.

(** A child that prints an empty object and exits with code 0 at 9 ms. *)
Definition quick_child : list (Z * ProcEvent) :=
  [(5, StdoutData (bytes "{}")); (9, Close (Some 0))].

Definition empty_query : JsValue := JObj [("query", JStr EmptyString)].

Definition blank_query : JsValue := JObj [("query", JStr "   ")].

Definition null_options : JsValue :=
  JObj [("query", JStr "x"); ("options", JNull)].

Definition unchecked_options : JsValue :=
  JObj [("query", JStr "x");
        ("options",
         JObj [("depth", JStr "exhaustive");
               ("max_sources", JNum (-5 # 1));
               ("include_contact_info", JStr "yes");
               ("research_timeout", JNum (-1 # 1))])].

Definition falsy_fields : list (string * JsValue) :=
  [("depth", JStr EmptyString); ("max_sources", JNum (0 # 1));
   ("include_contact_info", JBool false);
   ("research_timeout", JNum (0 # 1))].

Definition falsy_options : JsValue :=
  JObj [("query", JStr "x"); ("options", JObj falsy_fields)].

(** A request for two seconds of research, and what the child receives. *)
Definition two_seconds : JsValue :=
  JObj [("query", JStr "x");
        ("options", JObj [("research_timeout", JNum (2 # 1))])].

Definition two_seconds_data : RequestData :=
  mkRequest (JStr "x")
    (mkOptions (JStr "standard") (JNum (20 # 1)) (JBool false)
       (JNum (2 # 1))).

(** A child that prints its result and closes half a second late. *)
Definition slow_child : list (Z * ProcEvent) :=
  [(100, StdoutData (bytes "{}")); (2500, Close (Some 0))].

(** A child still writing after the deadline. *)
Definition overdue_child : list (Z * ProcEvent) :=
  [(100, StdoutData (bytes "{")); (2100, StdoutData (bytes "}"))].

(** A child that prints its result and closes in time. *)
Definition timely_child : list (Z * ProcEvent) :=
  [(100, StdoutData (bytes "{")); (1400, StdoutData (bytes "}"));
   (1500, Close (Some 0))].

Definition traceback : string :=
  "Traceback (most recent call last): research_runner.py line 41: "
  ++ "MISTRAL_API_KEY=sk-live-1234 rejected by upstream".

(** A child that fails with a traceback on stderr. *)
Definition failing_child : list (Z * ProcEvent) :=
  [(40, StderrData (bytes traceback)); (50, Close (Some 1))].



(** A depth out of the range of JSON numerals, as [1e999] is parsed. *)
Definition infinite_depth : JsValue :=
  JObj [("query", JStr "x");
        ("options", JObj [("depth", JInf false)])].


End Sample.

(** ** The route's traces, up to the child's close *)

Module Trace.
Import Server.

(** The events the listeners see: those up to and including the first
    [close]. *)
Fixpoint until_close (events : list (Z * ProcEvent))
  : list (Z * ProcEvent) :=
  match events with
  | [] => []
  | (t, Close exit_code) :: _ => [(t, Close exit_code)]
  | e :: rest => e :: until_close rest
  end.

End Trace.

(** ** [researchQuerySchema] (shared/research-schema.ts, lines 4-8) *)

Module QuerySchema.

(** [ResearchQuery], the output type of the schema. *)
Record ResearchQuery : Type := mkQuery {
  query : string;
  language : string;
  gdpr_mode : bool
}.

Inductive IssueCode : Type :=
| invalid_type
| too_small.

(** A zod issue: where, which kind, and the message when the schema gives
    its own. *)
Record Issue : Type := mkIssue {
  path : list string;
  issue_code : IssueCode;
  custom_message : option string
}.

(** [z.string().min(1, "Query cannot be empty")] *)
Definition parse_query (v : JsValue) : list Issue + string :=
  match v with
  | JStr s =>
      if Nat.ltb (String.length s) 1
      then inl [mkIssue ["query"] too_small (Some "Query cannot be empty")]
      else inr s
  | _ => inl [mkIssue ["query"] invalid_type None]
  end.

(** [z.string().default("en")]: the default stands in for [undefined]
    only. *)
Definition parse_language (v : JsValue) : list Issue + string :=
  match v with
  | JUndefined => inr "en"
  | JStr s => inr s
  | _ => inl [mkIssue ["language"] invalid_type None]
  end.

(** [z.boolean().default(false)] *)
Definition parse_gdpr_mode (v : JsValue) : list Issue + bool :=
  match v with
  | JUndefined => inr false
  | JBool b => inr b
  | _ => inl [mkIssue ["gdpr_mode"] invalid_type None]
  end.

Definition issues_of {A : Type} (r : list Issue + A) : list Issue :=
  match r with
  | inl issues => issues
  | inr _ => []
  end.

(** [researchQuerySchema.safeParse(input)]: [z.object] takes a plain object
    only, parses every key of its shape, collects their issues in the
    order of the shape and drops the keys it does not know. *)
Definition safeParse (input : JsValue) : list Issue + ResearchQuery :=
  match input with
  | JObj fields =>
      let q := parse_query (assoc "query" fields) in
      let l := parse_language (assoc "language" fields) in
      let g := parse_gdpr_mode (assoc "gdpr_mode" fields) in
      match q, l, g with
      | inr q', inr l', inr g' => inr (mkQuery q' l' g')
      | _, _, _ => inl (issues_of q ++ issues_of l ++ issues_of g)
      end
  | _ => inl [mkIssue [] invalid_type None]
  end.

(** A [ResearchQuery] as the JSON value it is. *)
Definition to_json (r : ResearchQuery) : JsValue :=
  JObj [("query", JStr (query r));
        ("language", JStr (language r));
        ("gdpr_mode", JBool (gdpr_mode r))].

End QuerySchema.

(** ** [fetch("/api/research")]: the form's view of the route's response *)

Module Link.

(** What [fetch] resolves to when the route sends [r]: [response.ok] is a
    status from 200 to 299, and [response.json()] parses the text that
    [res.json] wrote with [JSON.stringify]. *)
Definition fetched (r : Server.Response) : Client.FetchOutcome :=
  Client.Resolved
    (Z.leb 200 (Server.code r) && Z.leb (Server.code r) 299)
    (Normal (wire (Server.payload r))).

End Link.

(** ** [Home]: what the component renders (home.tsx, lines 75-233) *)

Module View.
Import Client.

(** [exampleQueries] *)
Definition exampleQueries : list string :=
  ["What are the latest developments in quantum computing?";
   "How is climate change affecting European agriculture?";
   "What are the cybersecurity implications of 5G networks?"].

(** [setQuery], from the input's [onChange] and from [useExampleQuery]. *)
Definition setQuery (q : string) (st : State) : State :=
  mkState q (isLoading st) (result st) (status st) (posted st) (statuses st).

Definition useExampleQuery (exampleQuery : string) (st : State) : State :=
  setQuery exampleQuery st.

(** The dot before the status message. *)
Inductive Indicator : Type :=
| Red
| Green
| Pulsing.

Definition indicator (s : ResearchStatus) : Indicator :=
  match Schema.status s with
  | Schema.error => Red
  | complete => Green
  | _ => Pulsing
  end.

(** [{status.progress && (...)}]: nothing for [undefined], the number
    itself for 0, the bar otherwise. *)
Inductive ProgressView : Type :=
| NoProgress
| BareNumber (p : Q)
| Bar (p : Q).

Definition progress_view (s : ResearchStatus) : ProgressView :=
  match progress s with
  | None => NoProgress
  | Some p => if Z.eqb (Qnum p) 0 then BareNumber p else Bar p
  end.

Record StatusLine : Type := mkStatusLine {
  dot : Indicator;
  text : string;
  bar : ProgressView
}.

Definition newline : ascii := "010"%char.

(** [s.split('\n')] *)
Fixpoint split_lines (s : string) : list string :=
  match s with
  | EmptyString => [EmptyString]
  | String c rest =>
      if Ascii.eqb c newline then EmptyString :: split_lines rest
      else match split_lines rest with
           | [] => [String c EmptyString]
           | piece :: pieces => String c piece :: pieces
           end
  end.

(** [pieces.join('\n')] *)
Fixpoint join_lines (pieces : list string) : string :=
  match pieces with
  | [] => EmptyString
  | [piece] => piece
  | piece :: more => piece ++ String newline (join_lines more)
  end.

Definition blank (s : string) : bool := String.eqb (trim s) EmptyString.

(** The [<p>] elements of the answer: [paragraph.trim() && <p>...</p>]
    gives the empty string, which React does not render, for a blank line. *)
Definition rendered_paragraphs (answer : string) : list string :=
  filter (fun paragraph => negb (blank paragraph)) (split_lines answer).

(** One entry of the Sources list. *)
Record SourceCard : Type := mkCard {
  href : JsValue;
  title : JsValue;
  key_findings : JsValue;
  domain : JsValue;
  relevance : string
}.

Record ResultsView : Type := mkResults {
  time_label : string;
  paragraphs : list string;
  cards : list SourceCard
}.

(** [{result && (...)}]: nothing for [null], the value itself for another
    falsy value, the Answer and Sources blocks otherwise. *)
Inductive ResultsSection : Type :=
| NoResults
| BareValue (v : JsValue)
| Results (view : ResultsView).

Record Page : Type := mkPage {
  input_value : string;
  input_disabled : bool;
  submit_disabled : bool;
  examples : option (list string);
  status_line : option StatusLine;
  results : ResultsSection;
  welcome : bool
}.

Definition and_then {A B : Type} (c : Completion A) (k : A -> Completion B)
  : Completion B :=
  match c with
  | Normal a => k a
  | Throw e => Throw e
  end.

Fixpoint for_each {A B : Type} (f : A -> Completion B) (l : list A)
  : Completion (list B) :=
  match l with
  | [] => Normal []
  | a :: rest =>
      and_then (f a) (fun b =>
      and_then (for_each f rest) (fun bs => Normal (b :: bs)))
  end.

(** React accepts strings, numbers, booleans, [null], [undefined] and
    arrays of these as children, and throws on an object. *)
Fixpoint valid_child (v : JsValue) : bool :=
  match v with
  | JObj _ => false
  | JArr items => forallb valid_child items
  | _ => true
  end.

(** A method call [v.name(...)] on a value that is [null] or [undefined],
    or that has no such method. *)
Definition no_method (v : JsValue) (name : string) : JsError :=
  match v with
  | JUndefined =>
      mkError "TypeError"
        ("Cannot read properties of undefined (reading '" ++ name ++ "')")
  | JNull =>
      mkError "TypeError"
        ("Cannot read properties of null (reading '" ++ name ++ "')")
  | _ => mkError "TypeError" (name ++ " is not a function")
  end.

Section Render.

(** [n.toFixed(1)] *)
Variable toFixed1 : Q -> string.

(** The text of [Math.round(q * 100)] for a number [q]. *)
Variable round_percent : Q -> string.

(** [Math.round(v * 100)] for a value that is not a number: the text of the
    number it is coerced to, or the [TypeError] of the coercion (an object
    whose [toString] is not callable). *)
Variable percent_other : JsValue -> Completion string.

Definition percent (v : JsValue) : Completion string :=
  match v with
  | JNum q => Normal (round_percent q)
  | JInf negative => Normal (if negative then "-Infinity" else "Infinity")
  | other => percent_other other
  end.

(** [result.research_metadata.research_time_seconds.toFixed(1)] *)
Definition render_time (result : JsValue) : Completion string :=
  and_then (get result "research_metadata") (fun metadata =>
  and_then (get metadata "research_time_seconds") (fun seconds =>
  match seconds with
  | JNum q => Normal (toFixed1 q)
  | JInf negative => Normal (if negative then "-Infinity" else "Infinity")
  | other => Throw (no_method other "toFixed")
  end)).

(** [result.answer.split('\n').map(...)] *)
Definition render_answer (result : JsValue) : Completion (list string) :=
  and_then (get result "answer") (fun answer =>
  match answer with
  | JStr s => Normal (rendered_paragraphs s)
  | other => Throw (no_method other "split")
  end).

(** The body of [result.sources.map((source, index) => ...)]. *)
Definition render_source (source : JsValue) : Completion SourceCard :=
  and_then (get source "url") (fun url =>
  and_then (get source "title") (fun t =>
  and_then (get source "key_findings") (fun k =>
  and_then (get source "domain") (fun d =>
  and_then (get source "relevance_score") (fun r =>
  and_then (percent r) (fun label =>
  Normal (mkCard url t k d label))))))).

Definition render_sources (result : JsValue)
  : Completion (list SourceCard) :=
  and_then (get result "sources") (fun sources =>
  match sources with
  | JArr items => for_each render_source items
  | other => Throw (no_method other "map")
  end).

Definition card_children_valid (c : SourceCard) : bool :=
  valid_child (title c) && valid_child (key_findings c)
  && valid_child (domain c).

(** The Results block: the expressions of the JSX in order, then React's
    check of the children. *)
Definition render_results (result : JsValue) : Completion ResultsView :=
  and_then (render_time result) (fun t =>
  and_then (render_answer result) (fun ps =>
  and_then (render_sources result) (fun cs =>
  if forallb card_children_valid cs
  then Normal (mkResults t ps cs)
  else Throw (mkError "Error" "Objects are not valid as a React child")))).

Definition shown (r : option JsValue) : bool :=
  match r with
  | Some v => truthy v
  | None => false
  end.

(** The component's [return], from the state of its cells. *)
Definition render (st : State) : Completion Page :=
  let section :=
    match result st with
    | None => Normal NoResults
    | Some v =>
        if truthy v
        then and_then (render_results v) (fun view => Normal (Results view))
        else Normal (BareValue v)
    end in
  and_then section (fun res =>
  Normal
    (mkPage (query st) (isLoading st)
       (isLoading st || negb (truthy (JStr (trim (query st)))))
       (if shown (result st) then None else Some exampleQueries)
       (option_map (fun s => mkStatusLine (indicator s) (message s)
                                (progress_view s))
          (status st))
       res
       (negb (shown (result st))
        && match status st with
           | None => true
           | Some _ => false
           end))).

End Render.

End View.

(** ** Further examples *)

Module Example.
Import Server.

(** A child that has printed half of its result. *)
Definition partial_child : list (Z * ProcEvent) :=
  [(100, StdoutData (Sample.bytes "{"));
   (200, StderrData (Sample.bytes "searching"))].

(** Agree with [toFixed(1)] and with [Math.round(q * 100)] on the numbers
    of [typed_result]. *)
Definition toFixed1 (q : Q) : string :=
  if Qeq_bool q (3 # 2) then "1.5" else "0.0".

Definition round_percent (q : Q) : string :=
  if Qeq_bool q (9 # 10) then "90" else "0".

(** Not consulted by the examples. *)
Definition percent_other (_ : JsValue) : Completion string := Normal "NaN".

Definition two_lines : string :=
  "Paris is the capital [1]." ++ String View.newline "It has been since 987.".

(** An answer of two paragraphs with a line of spaces in between. *)
Definition spaced_lines : list string :=
  ["Paris is the capital [1]."; "  "; "It has been since 987."].

(** A result with the members and types of [interface ResearchResult]. *)
Definition typed_result : JsValue :=
  JObj [("query", JStr "capital of France");
        ("answer", JStr two_lines);
        ("research_metadata",
         JObj [("sources_searched", JNum (12 # 1));
               ("sources_processed", JNum (1 # 1));
               ("research_time_seconds", JNum (3 # 2));
               ("confidence_score", JNum (4 # 5));
               ("query_type", JStr "factual");
               ("sub_questions", JArr [JStr "capital of France"])]);
        ("sources",
         JArr [JObj [("title", JStr "France");
                     ("url", JStr "https://example.org/france");
                     ("relevance_score", JNum (9 # 10));
                     ("key_findings", JStr "Paris is the capital.");
                     ("domain", JStr "example.org");
                     ("content_length", JNum (2048 # 1));
                     ("quality_score", JNum (7 # 10))]]);
        ("follow_up_suggestions", JArr [])].

(** The form after a request that gave [r]. *)
Definition form_with (r : JsValue) : Client.State :=
  Client.mkState "capital of France" false (Some r) None [] [].

End Example.

(** * Properties *)

(** ** JavaScript values *)

Lemma truthy_string (s : string) :
  truthy (JStr s) = true <-> s <> EmptyString.
Proof.
  destruct s; simpl; split; intro H; try reflexivity; try discriminate.
  now elim H.
Qed.

(** [!query || typeof query !== 'string'] fails exactly on a non-empty
    string. *)
Lemma query_check (query : JsValue) :
  negb (truthy query) || negb (String.eqb (typeof query) "string") = false
  <-> exists s, query = JStr s /\ s <> EmptyString.
Proof.
  split.
  - intro H. apply orb_false_elim in H as [Ht Hs].
    apply negb_false_iff in Ht.
    destruct query; try discriminate.
    exists s. split; [reflexivity | now apply truthy_string].
  - intros [s [-> Hs]]. apply truthy_string in Hs.
    simpl in *. now rewrite Hs.
Qed.

Lemma or_else_falsy (v d : JsValue) :
  truthy v = false -> or_else v d = d.
Proof. unfold or_else. now intros ->. Qed.

Lemma or_else_truthy (v d : JsValue) :
  truthy v = true -> or_else v d = v.
Proof. unfold or_else. now intros ->. Qed.

Lemma or_else_cases (v d : JsValue) :
  truthy (or_else v d) = true \/ or_else v d = d.
Proof.
  unfold or_else.
  destruct (truthy v) eqn:E; [left; exact E | right; reflexivity].
Qed.

Lemma JsValue_null_dec (v : JsValue) : {v = JNull} + {v <> JNull}.
Proof. destruct v; (now left) || (right; discriminate). Qed.

(** ** What JSON carries *)

(** A number that arrives was sent. *)
Lemma wire_number (v : JsValue) (q : Q) : wire v = JNum q -> v = JNum q.
Proof. destruct v; simpl; intro H; try discriminate H; exact H. Qed.

(** A truthy value arrives truthy, except a number that is not finite,
    which arrives as [null]. *)
Lemma wire_truthy (v : JsValue) :
  truthy v = true ->
  (truthy (wire v) = true /\ forall negative, v <> JInf negative)
  \/ (wire v = JNull /\ exists negative, v = JInf negative).
Proof.
  destruct v; simpl; intro H; try discriminate H;
    try (left; split; [assumption || reflexivity | discriminate]).
  right. split; [reflexivity | now exists negative].
Qed.

Lemma wire_null (v : JsValue) :
  wire v = JNull <-> v = JNull \/ exists negative, v = JInf negative.
Proof.
  split.
  - destruct v; simpl; intro H; try discriminate H; auto.
    right. now exists negative.
  - intros [-> | [negative ->]]; reflexivity.
Qed.



(** ** Coercions *)

Section Coercion_facts.

Variable NumberToString : Q -> string.
Variable StringToNumber : string -> option Q.
Variable round : Q -> option Q.

Local Notation ToString := (Js.ToString NumberToString).
Local Notation ToNumber := (Js.ToNumber NumberToString StringToNumber).
Local Notation times := (Js.times NumberToString StringToNumber round).
Local Notation to_double := (Js.to_double round).

(** The one exception a coercion of a parsed value throws. *)
Lemma ToString_throws :
  forall (v : JsValue) (e : JsError),
    ToString v = Throw e -> e = not_primitive.
Proof.
  fix IH 1.
  intros [ | | b | q | negative | s | items | fields] e;
    cbn [Js.ToString]; try discriminate.
  - revert e. induction items as [| x rest IHrest]; intro e;
      [discriminate | ].
    assert (X : forall e', ToString x = Throw e' -> e' = not_primitive)
      by apply IH.
    destruct x; try (specialize (X e));
      repeat match goal with
             | |- context [match ?t with Normal _ => _ | Throw _ => _ end] =>
                 destruct t eqn:?
             | |- context [match rest with [] => _ | _ :: _ => _ end] =>
                 destruct rest
             end;
      try discriminate;
      try (intro H; injection H as <-; (now apply X) || (now apply IHrest)).
  - destruct (has_own "toString" fields); [ | discriminate].
    intro H. now injection H as <-.
Qed.

Lemma times_throws (v : JsValue) (k : Q) (e : JsError) :
  times v k = Throw e -> e = not_primitive.
Proof.
  unfold Js.times, Js.ToNumber.
  destruct v as [ | | b | q | negative | s | items | fields];
    try discriminate.
  - destruct (StringToNumber s); discriminate.
  - destruct (ToString (JArr items)) as [text | e'] eqn:E.
    + destruct (StringToNumber text); discriminate.
    + intro H. injection H as <-. exact (ToString_throws _ _ E).
  - destruct (has_own "toString" fields); [ | discriminate].
    intro H. now injection H as <-.
Qed.




End Coercion_facts.

(** ** The route up to the spawn *)

Section Validation.
Import Server Outcome.

Variable NumberToString : Q -> string.
Variable StringToNumber : string -> option Q.
Variable round : Q -> option Q.

Local Notation times := (Js.times NumberToString StringToNumber round).
Local Notation research_try :=
  (Server.research_try NumberToString StringToNumber round).
Local Notation handle := (Server.handle NumberToString StringToNumber round).
Local Notation deadline :=
  (Outcome.deadline NumberToString StringToNumber round).

Lemma handle_nullish (now : Z) (body : JsValue) :
  body = JUndefined \/ body = JNull ->
  exists e,
    research_try now body init = (Throw e, init)
    /\ handle now body = rejected (internal_error (err_message e)).
Proof. intros [-> | ->]; eexists; split; reflexivity. Qed.

Lemma handle_invalid (now : Z) (body : JsValue) :
  body <> JUndefined -> body <> JNull ->
  negb (truthy (member body "query"))
  || negb (String.eqb (typeof (member body "query")) "string") = true ->
  handle now body = rejected invalid_request.
Proof.
  intros H1 H2 Hq.
  unfold Server.handle, research_route, Server.research_try, run_callback,
    try_catch, bind, lift.
  destruct body; try (now elim H1); try (now elim H2);
    cbn [destructure fst snd]; rewrite Hq; reflexivity.
Qed.

Lemma handle_null_options (now : Z) (body : JsValue) (s : string) :
  member body "query" = JStr s -> s <> EmptyString ->
  member body "options" = JNull ->
  research_try now body init
  = (Throw (mkError "TypeError"
              "Cannot read properties of null (reading 'depth')"), init)
  /\ handle now body
     = rejected (internal_error
                   "Cannot read properties of null (reading 'depth')").
Proof.
  intros Hq Hs Ho.
  destruct body; try discriminate Hq.
  unfold Server.handle, research_route, Server.research_try, run_callback,
    try_catch, bind, lift.
  cbn [destructure fst snd]. rewrite Hq, Ho.
  apply truthy_string in Hs. cbn [typeof]. rewrite Hs. split; reflexivity.
Qed.

(** The route past the validation: the child is spawned, and the timer is
    armed unless the delay cannot be computed. *)
Lemma handle_spawns (now : Z) (body : JsValue) (s : string) :
  member body "query" = JStr s -> s <> EmptyString ->
  member body "options" <> JNull ->
  let rd := request_of (JStr s) (member body "options") in
  match times (research_timeout (options rd)) (1000 # 1) with
  | Normal delay =>
      handle now body
      = running (stdin_data rd) (now + timer_delay delay)
          EmptyString EmptyString
  | Throw e =>
      handle now body
      = orphaned (stdin_data rd) (internal_error (err_message e))
          EmptyString EmptyString
      /\ exists st, research_try now body init = (Throw e, st)
  end.
Proof.
  intros Hq Hs Ho rd. subst rd.
  destruct body; try discriminate Hq.
  unfold Server.handle, research_route, Server.research_try, run_callback,
    try_catch, bind, lift.
  cbn [destructure fst snd]. rewrite Hq.
  apply truthy_string in Hs. cbn [typeof]. rewrite Hs.
  cbn [request_of options research_timeout].
  destruct (member (JObj fields) "options") eqn:E;
    try (now elim Ho);
    cbn [negb orb String.eqb Ascii.eqb Bool.eqb get member assoc];
    match goal with
    | |- match ?t with _ => _ end => destruct t as [delay | e]
    end;
    try reflexivity; (split; [reflexivity | eexists; reflexivity]).
Qed.

(** Every body is handled in one of four ways. *)
Lemma handle_cases (now : Z) (body : JsValue) :
  handle now body = rejected invalid_request
  \/ (exists e, research_try now body init = (Throw e, init)
                /\ handle now body
                   = rejected (internal_error (err_message e)))
  \/ (exists s,
         let rd := request_of (JStr s) (member body "options") in
         member body "query" = JStr s /\ s <> EmptyString
         /\ member body "options" <> JNull
         /\ ((exists delay,
                 times (research_timeout (options rd)) (1000 # 1)
                 = Normal delay
                 /\ handle now body
                    = running (stdin_data rd) (now + timer_delay delay)
                        EmptyString EmptyString)
             \/ (exists e st,
                    times (research_timeout (options rd)) (1000 # 1)
                    = Throw e
                    /\ research_try now body init = (Throw e, st)
                    /\ handle now body
                       = orphaned (stdin_data rd)
                           (internal_error (err_message e))
                           EmptyString EmptyString))).
Proof.
  destruct (negb (truthy (member body "query"))
            || negb (String.eqb (typeof (member body "query")) "string"))
    eqn:Hq.
  - destruct body;
      try (right; left; eexists; split; reflexivity);
      left; apply handle_invalid; congruence.
  - apply query_check in Hq as [s [Hq Hs]].
    destruct (JsValue_null_dec (member body "options")) as [Ho | Ho].
    + right; left. eexists.
      exact (handle_null_options now body s Hq Hs Ho).
    + right; right. exists s. cbv zeta.
      split; [exact Hq | ]. split; [exact Hs | ]. split; [exact Ho | ].
      pose proof (handle_spawns now body s Hq Hs Ho) as H. cbv zeta in H.
      destruct (times _ _) as [delay | e].
      * left. now exists delay.
      * right. destruct H as [H [st T]]. now exists e, st.
Qed.

End Validation.

(** ** The callbacks: one turn of the event loop *)

Section Events.
Import Server Outcome.

Variable JSON_parse : string -> Completion JsValue.
Variable Buffer_toString : Buffer -> string.

Local Notation step := (Server.step JSON_parse Buffer_toString).
Local Notation completed := (Outcome.completed JSON_parse).
Local Notation closed_late := (Outcome.closed_late JSON_parse).
Local Notation orphan_closed := (Outcome.orphan_closed JSON_parse).
Local Notation Reached := (Outcome.Reached JSON_parse).
Local Notation Orphaned := (Outcome.Orphaned JSON_parse).

Variables (rd : RequestData) (due : Z).

Lemma step_rejected (r : Response) (e : Z * ProcEvent) :
  step (rejected r) e = rejected r.
Proof. reflexivity. Qed.

Lemma step_running_stdout (t : Z) (data : Buffer) (out err : string) :
  t < due ->
  step (running rd due out err) (t, StdoutData data)
  = running rd due (out ++ Buffer_toString data) err.
Proof.
  intro H. unfold Server.step, tick. cbn [fst snd timer running].
  destruct (Z.leb_spec due t); [lia | reflexivity].
Qed.

Lemma step_running_stderr (t : Z) (data : Buffer) (out err : string) :
  t < due ->
  step (running rd due out err) (t, StderrData data)
  = running rd due out (err ++ Buffer_toString data).
Proof.
  intro H. unfold Server.step, tick. cbn [fst snd timer running].
  destruct (Z.leb_spec due t); [lia | reflexivity].
Qed.

Lemma step_running_close (t : Z) (exit_code : option Z) (out err : string) :
  t < due ->
  step (running rd due out err) (t, Close exit_code)
  = completed rd out err exit_code.
Proof.
  intro H. unfold Server.step, tick. cbn [fst snd timer running].
  destruct (Z.leb_spec due t); [lia | ].
  unfold Outcome.completed, close_response, run_callback, emit,
    on_close_respond, on_close_clear, try_catch, bind, lift, read, modify.
  cbn [spawned closed output error running].
  destruct (nonzero exit_code); [reflexivity | ].
  destruct (JSON_parse out); reflexivity.
Qed.

Lemma step_running_late (t : Z) (ev : ProcEvent) (out err : string) :
  due <= t ->
  step (running rd due out err) (t, ev) = step (timed_out rd out err) (t, ev).
Proof.
  intro H. unfold Server.step, tick. cbn [fst snd timer running timed_out].
  destruct (Z.leb_spec due t); [reflexivity | lia].
Qed.

Lemma step_timed_out_stdout (t : Z) (data : Buffer) (out err : string) :
  step (timed_out rd out err) (t, StdoutData data)
  = timed_out rd (out ++ Buffer_toString data) err.
Proof. reflexivity. Qed.

Lemma step_timed_out_stderr (t : Z) (data : Buffer) (out err : string) :
  step (timed_out rd out err) (t, StderrData data)
  = timed_out rd out (err ++ Buffer_toString data).
Proof. reflexivity. Qed.

Lemma step_timed_out_close (t : Z) (exit_code : option Z) (out err : string) :
  step (timed_out rd out err) (t, Close exit_code)
  = closed_late rd out err exit_code.
Proof.
  unfold Server.step, tick. cbn [fst snd timer timed_out].
  unfold Outcome.closed_late, late_calls, run_callback, emit,
    on_close_respond, on_close_clear, try_catch, bind, lift, read, modify.
  cbn [spawned closed output error timed_out].
  destruct (nonzero exit_code); [reflexivity | ].
  destruct (JSON_parse out); reflexivity.
Qed.

Lemma step_completed (e : Z * ProcEvent) (out err : string)
  (exit_code : option Z) :
  step (completed rd out err exit_code) e = completed rd out err exit_code.
Proof. reflexivity. Qed.

Lemma step_closed_late (e : Z * ProcEvent) (out err : string)
  (exit_code : option Z) :
  step (closed_late rd out err exit_code) e
  = closed_late rd out err exit_code.
Proof. reflexivity. Qed.

Lemma step_timed_out_reached (e : Z * ProcEvent) (out err : string) :
  Reached rd due (step (timed_out rd out err) e).
Proof.
  destruct e as [t [data | data | exit_code]].
  - rewrite step_timed_out_stdout. constructor.
  - rewrite step_timed_out_stderr. constructor.
  - rewrite step_timed_out_close. constructor.
Qed.

(** The four kinds of state are closed under the event loop. *)
Lemma step_reached (st : State) (e : Z * ProcEvent) :
  Reached rd due st -> Reached rd due (step st e).
Proof.
  intros [out err | out err | out err c | out err c].
  - destruct e as [t ev]. destruct (Z.lt_ge_cases t due) as [Hlt | Hge].
    + destruct ev as [data | data | exit_code].
      * rewrite step_running_stdout by exact Hlt. constructor.
      * rewrite step_running_stderr by exact Hlt. constructor.
      * rewrite step_running_close by exact Hlt. constructor.
    + rewrite step_running_late by exact Hge. apply step_timed_out_reached.
  - apply step_timed_out_reached.
  - rewrite step_completed. constructor.
  - rewrite step_closed_late. constructor.
Qed.

Lemma steps_reached (events : list (Z * ProcEvent)) (st : State) :
  Reached rd due st -> Reached rd due (fold_left step events st).
Proof.
  revert st. induction events as [| e rest IH]; intros st H; simpl.
  - exact H.
  - apply IH, step_reached, H.
Qed.

Lemma steps_rejected (events : list (Z * ProcEvent)) (r : Response) :
  fold_left step events (rejected r) = rejected r.
Proof.
  induction events as [| e rest IH]; simpl; [reflexivity | ].
  rewrite step_rejected. exact IH.
Qed.

Lemma steps_completed (events : list (Z * ProcEvent)) (out err : string)
  (exit_code : option Z) :
  fold_left step events (completed rd out err exit_code)
  = completed rd out err exit_code.
Proof.
  induction events as [| e rest IH]; simpl; [reflexivity | ].
  rewrite step_completed. exact IH.
Qed.

Lemma steps_closed_late (events : list (Z * ProcEvent)) (out err : string)
  (exit_code : option Z) :
  fold_left step events (closed_late rd out err exit_code)
  = closed_late rd out err exit_code.
Proof.
  induction events as [| e rest IH]; simpl; [reflexivity | ].
  rewrite step_closed_late. exact IH.
Qed.

(** The child that runs without a timer. *)
Variable answer : Response.

Lemma step_orphaned_stdout (t : Z) (data : Buffer) (out err : string) :
  step (orphaned rd answer out err) (t, StdoutData data)
  = orphaned rd answer (out ++ Buffer_toString data) err.
Proof. reflexivity. Qed.

Lemma step_orphaned_stderr (t : Z) (data : Buffer) (out err : string) :
  step (orphaned rd answer out err) (t, StderrData data)
  = orphaned rd answer out (err ++ Buffer_toString data).
Proof. reflexivity. Qed.

Lemma step_orphaned_close (t : Z) (exit_code : option Z) (out err : string) :
  step (orphaned rd answer out err) (t, Close exit_code)
  = orphan_closed rd answer out err exit_code.
Proof.
  unfold Server.step, tick. cbn [fst snd timer orphaned].
  unfold Outcome.orphan_closed, late_calls, run_callback, emit,
    on_close_respond, on_close_clear, try_catch, bind, lift, read, modify.
  cbn [spawned closed output error orphaned].
  destruct (nonzero exit_code); [reflexivity | ].
  destruct (JSON_parse out); reflexivity.
Qed.

Lemma step_orphan_closed (e : Z * ProcEvent) (out err : string)
  (exit_code : option Z) :
  step (orphan_closed rd answer out err exit_code) e
  = orphan_closed rd answer out err exit_code.
Proof. reflexivity. Qed.

Lemma step_orphaned (st : State) (e : Z * ProcEvent) :
  Orphaned rd answer st -> Orphaned rd answer (step st e).
Proof.
  intros [out err | out err c].
  - destruct e as [t [data | data | exit_code]].
    + rewrite step_orphaned_stdout. constructor.
    + rewrite step_orphaned_stderr. constructor.
    + rewrite step_orphaned_close. constructor.
  - rewrite step_orphan_closed. constructor.
Qed.

Lemma steps_orphaned (events : list (Z * ProcEvent)) (st : State) :
  Orphaned rd answer st -> Orphaned rd answer (fold_left step events st).
Proof.
  revert st. induction events as [| e rest IH]; intros st H; simpl.
  - exact H.
  - apply IH, step_orphaned, H.
Qed.

Lemma steps_orphan_closed (events : list (Z * ProcEvent)) (out err : string)
  (exit_code : option Z) :
  fold_left step events (orphan_closed rd answer out err exit_code)
  = orphan_closed rd answer out err exit_code.
Proof.
  induction events as [| e rest IH]; simpl; [reflexivity | ].
  rewrite step_orphan_closed. exact IH.
Qed.

End Events.

(** ** Traces of an accepted request *)

Section Traces.
Import Server Outcome.

Variable JSON_parse : string -> Completion JsValue.
Variable Buffer_toString : Buffer -> string.

Local Notation step := (Server.step JSON_parse Buffer_toString).
Local Notation completed := (Outcome.completed JSON_parse).
Local Notation closed_late := (Outcome.closed_late JSON_parse).
Local Notation Reached := (Outcome.Reached JSON_parse).
Local Notation stdout_until_close :=
  (Outcome.stdout_until_close Buffer_toString).
Local Notation stderr_until_close :=
  (Outcome.stderr_until_close Buffer_toString).

Variables (rd : RequestData) (due : Z).

Lemma append_empty_r (s : string) : (s ++ EmptyString)%string = s.
Proof. induction s as [| c s IH]; simpl; [reflexivity | now rewrite IH]. Qed.

Lemma append_associative (a b c : string) :
  ((a ++ b) ++ c)%string = (a ++ (b ++ c))%string.
Proof. induction a as [| x a IH]; simpl; [reflexivity | now rewrite IH]. Qed.

(** Once the timer has run, the request stays timed out: the child's later
    events find the 408 already sent. *)
Lemma steps_timed_out (events : list (Z * ProcEvent)) (out err : string) :
  (exists out' err',
      fold_left step events (timed_out rd out err) = timed_out rd out' err')
  \/ (exists out' err' exit_code,
         fold_left step events (timed_out rd out err)
         = closed_late rd out' err' exit_code).
Proof.
  revert out err.
  induction events as [| [t [data | data | exit_code]] rest IH];
    intros out err; simpl.
  - left. now exists out, err.
  - rewrite step_timed_out_stdout. apply IH.
  - rewrite step_timed_out_stderr. apply IH.
  - rewrite step_timed_out_close, steps_closed_late.
    right. now exists out, err, exit_code.
Qed.

Lemma steps_timed_out_timer (events : list (Z * ProcEvent))
  (out err : string) :
  let st := fold_left step events (timed_out rd out err) in
  timer st = Fired /\ killed st = true
  /\ delivered st = Some request_timeout.
Proof.
  destruct (steps_timed_out events out err)
    as [[out' [err' E]] | [out' [err' [c E]]]];
    cbv zeta; rewrite E; repeat split.
Qed.


Lemma settle_running (out err : string) :
  settle (running rd due out err) = timed_out rd out err.
Proof.
  unfold settle, tick. cbn [timer running].
  destruct (Z.leb_spec due due); [reflexivity | lia].
Qed.

(** With no [close] before the deadline the timer runs: the child is
    killed and the client gets the 408. *)
Lemma steps_running_overdue (events : list (Z * ProcEvent)) :
  forall out err,
    (forall t exit_code, In (t, Close exit_code) events -> due <= t) ->
    let st := settle (fold_left step events (running rd due out err)) in
    timer st = Fired /\ killed st = true
    /\ delivered st = Some request_timeout.
Proof.
  induction events as [| [t ev] rest IH]; intros out err H.
  - cbn [fold_left]. cbv zeta. rewrite settle_running. repeat split.
  - cbn [fold_left]. cbv zeta.
    destruct (Z.lt_ge_cases t due) as [Hlt | Hge].
    + destruct ev as [data | data | exit_code].
      * rewrite step_running_stdout by exact Hlt.
        apply IH. intros t' c Hin. apply (H t' c). now right.
      * rewrite step_running_stderr by exact Hlt.
        apply IH. intros t' c Hin. apply (H t' c). now right.
      * specialize (H t exit_code (or_introl eq_refl)). lia.
    + rewrite step_running_late by exact Hge.
      assert (S : forall o e,
                 let st := settle (fold_left step rest (timed_out rd o e)) in
                 timer st = Fired /\ killed st = true
                 /\ delivered st = Some request_timeout).
      { intros o e. cbv zeta.
        destruct (steps_timed_out_timer rest o e) as [T1 [T2 T3]].
        unfold settle. rewrite T1. auto. }
      destruct ev as [data | data | exit_code].
      * rewrite step_timed_out_stdout. apply S.
      * rewrite step_timed_out_stderr. apply S.
      * rewrite step_timed_out_close, steps_closed_late.
        unfold settle. cbn. auto.
Qed.

End Traces.

(** ** Whole requests *)

Section Requests.
Import Server Outcome.

Variable JSON_parse : string -> Completion JsValue.
Variable Buffer_toString : Buffer -> string.
Variable NumberToString : Q -> string.
Variable StringToNumber : string -> option Q.
Variable round : Q -> option Q.

Local Notation times := (Js.times NumberToString StringToNumber round).
Local Notation research_try :=
  (Server.research_try NumberToString StringToNumber round).
Local Notation handle := (Server.handle NumberToString StringToNumber round).
Local Notation step := (Server.step JSON_parse Buffer_toString).
Local Notation run :=
  (Server.run JSON_parse Buffer_toString NumberToString StringToNumber round).
Local Notation Reached := (Outcome.Reached JSON_parse).
Local Notation Orphaned := (Outcome.Orphaned JSON_parse).
Local Notation deadline :=
  (Outcome.deadline NumberToString StringToNumber round).

Lemma reached_spawned (rd : RequestData) (due : Z) (st : State) :
  Reached rd due st -> spawned st = Some rd.
Proof. now intros []. Qed.

Lemma orphaned_spawned (rd : RequestData) (r : Response) (st : State) :
  Orphaned rd r st -> spawned st = Some rd.
Proof. now intros []. Qed.

Lemma reached_settle (rd : RequestData) (due : Z) (st : State) :
  Reached rd due st -> Reached rd due (settle st).
Proof.
  intros [out err | out err | out err c | out err c];
    try (unfold settle; cbn; constructor).
  rewrite settle_running. constructor.
Qed.

Lemma settle_rejected (r : Response) : settle (rejected r) = rejected r.
Proof. reflexivity. Qed.

(** Without a timer nothing is pending. *)
Lemma settle_orphaned (rd : RequestData) (r : Response) (st : State) :
  Orphaned rd r st -> settle st = st.
Proof. now intros []. Qed.

(** A request is answered by the route itself with no child, or its child
    was spawned with the request data built from the body: under a timer,
    or, where the delay of the timer cannot be computed, under none and
    with the 500 of the route's [catch] sent. *)
Lemma run_cases (now : Z) (body : JsValue) (events : list (Z * ProcEvent)) :
  (run now body events = rejected invalid_request
   /\ handle now body = rejected invalid_request)
  \/ (exists e,
         research_try now body init = (Throw e, init)
         /\ run now body events = rejected (internal_error (err_message e))
         /\ handle now body = rejected (internal_error (err_message e)))
  \/ (exists s delay,
         let rd := request_of (JStr s) (member body "options") in
         member body "query" = JStr s /\ s <> EmptyString
         /\ member body "options" <> JNull
         /\ times (research_timeout (options rd)) (1000 # 1) = Normal delay
         /\ handle now body
            = running (stdin_data rd) (now + timer_delay delay)
                EmptyString EmptyString
         /\ Reached (stdin_data rd) (now + timer_delay delay)
              (run now body events))
  \/ (exists s e st,
         let rd := request_of (JStr s) (member body "options") in
         member body "query" = JStr s /\ s <> EmptyString
         /\ member body "options" <> JNull
         /\ times (research_timeout (options rd)) (1000 # 1) = Throw e
         /\ research_try now body init = (Throw e, st)
         /\ handle now body
            = orphaned (stdin_data rd) (internal_error (err_message e))
                EmptyString EmptyString
         /\ Orphaned (stdin_data rd) (internal_error (err_message e))
              (run now body events)).
Proof.
  unfold Server.run.
  destruct (handle_cases NumberToString StringToNumber round now body)
    as [E | [[e [T E]] | [s [Hq [Hs [Ho [[delay [D E]] | [e [st [D [T E]]]]]]]]]]].
  - left. rewrite E, steps_rejected. auto.
  - right; left. exists e. rewrite E, steps_rejected. auto.
  - right; right; left. exists s, delay. cbv zeta.
    repeat split; try assumption.
    rewrite E. apply steps_reached. constructor.
  - right; right; right. exists s, e, st. cbv zeta.
    repeat split; try assumption.
    rewrite E. apply steps_orphaned. constructor.
Qed.

(** What the child receives has the timeout of the request when that is a
    number, and then the timer is armed for it. *)
Lemma stdin_data_timeout (rd : RequestData) (q : Q) :
  research_timeout (options (stdin_data rd)) = JNum q ->
  research_timeout (options rd) = JNum q.
Proof. apply wire_number. Qed.

Lemma spawned_handle (now : Z) (body : JsValue) (rd : RequestData) (q : Q) :
  spawned (handle now body) = Some rd ->
  research_timeout (options rd) = JNum q ->
  handle now body = running rd (deadline now rd) EmptyString EmptyString.
Proof.
  intros H Hq.
  destruct (handle_cases NumberToString StringToNumber round now body)
    as [E | [[e [_ E]] | [s [_ [_ [_ [[delay [D E]] | [e [st [D [_ E]]]]]]]]]]];
    rewrite E in H; try discriminate H; injection H as <-;
    apply stdin_data_timeout in Hq as Hq'; unfold Outcome.deadline;
    rewrite Hq; rewrite Hq' in D; cbn in D |- *.
  - injection D as <-. exact E.
  - discriminate D.
Qed.

End Requests.

(** * The claims *)

Section Validation_claims.
Import Server Outcome.

Variable JSON_parse : string -> Completion JsValue.
Variable Buffer_toString : Buffer -> string.
Variable NumberToString : Q -> string.
Variable StringToNumber : string -> option Q.
Variable round : Q -> option Q.

Local Notation times := (Js.times NumberToString StringToNumber round).
Local Notation handle := (Server.handle NumberToString StringToNumber round).
Local Notation run :=
  (Server.run JSON_parse Buffer_toString NumberToString StringToNumber round).
Local Notation deadline :=
  (Outcome.deadline NumberToString StringToNumber round).

(** C1. A body (an object, an array or a primitive, as the JSON body parser
    delivers it) whose [query] is missing, the empty string or not a string
    is answered by the route itself, before it returns, with the 400
    response "Query is required and must be a string"; no child process is
    spawned for it, whatever happens afterwards, and nothing else is ever
    sent. *)
Theorem invalid_query_rejected_without_pipeline_run
  (now : Z) (body : JsValue) (events : list (Z * ProcEvent)) :
  body <> JUndefined -> body <> JNull ->
  member body "query" = JUndefined
  \/ member body "query" = JStr EmptyString
  \/ typeof (member body "query") <> "string" ->
  handle now body = rejected invalid_request
  /\ let st := settle (run now body events) in
     delivered st = Some invalid_request
     /\ code invalid_request = 400
     /\ calls st = [invalid_request]
     /\ spawned st = None
     /\ timer st = Unset.
Proof.
  intros H1 H2 Hq.
  assert (E : handle now body = rejected invalid_request).
  { apply handle_invalid; try assumption.
    destruct Hq as [-> | [-> | Hq]]; try reflexivity.
    destruct (member body "query");
      cbn [typeof String.eqb Ascii.eqb Bool.eqb negb];
      rewrite ?orb_true_r; try reflexivity.
    now elim Hq. }
  split; [exact E | ].
  unfold Server.run. rewrite E, steps_rejected. cbv zeta.
  rewrite settle_rejected. repeat split.
Qed.

(** What arrives of an option: the body's value or the default, truthy,
    or [null] for a number that is not finite. *)
Lemma option_arrives (v d : JsValue) :
  truthy d = true -> (forall negative, d <> JInf negative) ->
  truthy (wire (or_else v d)) = true
  \/ (wire (or_else v d) = JNull /\ exists negative, v = JInf negative).
Proof.
  intros Hd Hi. unfold or_else. destruct (truthy v) eqn:T.
  - destruct (wire_truthy v T) as [[W _] | W]; [now left | now right].
  - destruct (wire_truthy d Hd) as [[W _] | [_ [negative E]]];
      [now left | now elim (Hi negative)].
Qed.

(** C2 (as amended). Every request for which a child is spawned has a
    non-empty string [query], the body's own, and options with the four
    members [depth], [max_sources], [include_contact_info] and
    [research_timeout]; the child receives each as JSON carries the body's
    value when that is truthy and the default ("standard", 20, false, 300)
    otherwise.  So [depth], [max_sources] and [research_timeout] arrive
    truthy, or as [null] when the body's value is a number that is not
    finite, and [include_contact_info] arrives truthy, [false], or [null]
    likewise; nothing else about the options is checked. *)
Theorem spawned_request_shape
  (now : Z) (body : JsValue) (events : list (Z * ProcEvent))
  (rd : RequestData) :
  spawned (run now body events) = Some rd ->
  let o := member body "options" in
  (exists s, query rd = JStr s /\ s <> EmptyString
             /\ member body "query" = JStr s)
  /\ depth (options rd)
     = wire (or_else (member o "depth") (JStr "standard"))
  /\ max_sources (options rd)
     = wire (or_else (member o "max_sources") (JNum (20 # 1)))
  /\ include_contact_info (options rd)
     = wire (or_else (member o "include_contact_info") (JBool false))
  /\ research_timeout (options rd)
     = wire (or_else (member o "research_timeout") (JNum (300 # 1)))
  /\ (truthy (depth (options rd)) = true
      \/ (depth (options rd) = JNull
          /\ exists negative, member o "depth" = JInf negative))
  /\ (truthy (max_sources (options rd)) = true
      \/ (max_sources (options rd) = JNull
          /\ exists negative, member o "max_sources" = JInf negative))
  /\ (truthy (research_timeout (options rd)) = true
      \/ (research_timeout (options rd) = JNull
          /\ exists negative, member o "research_timeout" = JInf negative))
  /\ (truthy (include_contact_info (options rd)) = true
      \/ include_contact_info (options rd) = JBool false
      \/ (include_contact_info (options rd) = JNull
          /\ exists negative,
               member o "include_contact_info" = JInf negative)).
Proof.
  intros H o.
  assert (S : exists s,
             member body "query" = JStr s /\ s <> EmptyString
             /\ rd = stdin_data (request_of (JStr s) o)).
  { destruct (run_cases JSON_parse Buffer_toString NumberToString
                StringToNumber round now body events)
      as [[E _] | [[e [_ [E _]]]
                  | [[s [delay [Hq [Hs [_ [_ [_ R]]]]]]]
                    | [s [e [st [Hq [Hs [_ [_ [_ [_ R]]]]]]]]]]]].
    - rewrite E in H. discriminate H.
    - rewrite E in H. discriminate H.
    - apply reached_spawned in R. rewrite R in H. injection H as <-.
      now exists s.
    - apply orphaned_spawned in R. rewrite R in H. injection H as <-.
      now exists s. }
  destruct S as [s [Hq [Hs ->]]].
  split; [exists s; auto | ].
  unfold stdin_data, request_of.
  cbn [options query depth max_sources include_contact_info
         research_timeout].
  repeat (split; [reflexivity | ]).
  repeat (split; [apply option_arrives; [reflexivity | discriminate] | ]).
  unfold or_else at 1 2 3.
  destruct (truthy (member o "include_contact_info")) eqn:T.
  - destruct (wire_truthy _ T) as [[W _] | W]; auto.
  - right; left. reflexivity.
Qed.

(** C9. When [options] is an object and one of its members is falsy (0, the
    empty string, [false], [null], or absent), the request is neither
    rejected nor passed through with that value: the child is spawned and
    receives the default in its place, "standard" for [depth], 20 for
    [max_sources], [false] for [include_contact_info] and 300 for
    [research_timeout], which also sets the timer.  Nothing is sent on the
    way, unless it is the [research_timeout], a truthy one, that has no
    primitive value. *)
Theorem falsy_option_replaced_by_default
  (now : Z) (body : JsValue) (s : string) (fields : list (string * JsValue)) :
  member body "query" = JStr s -> s <> EmptyString ->
  member body "options" = JObj fields ->
  exists rd,
    spawned (handle now body) = Some rd
    /\ query rd = JStr s
    /\ (truthy (assoc "depth" fields) = false ->
        depth (options rd) = JStr "standard")
    /\ (truthy (assoc "max_sources" fields) = false ->
        max_sources (options rd) = JNum (20 # 1))
    /\ (truthy (assoc "include_contact_info" fields) = false ->
        include_contact_info (options rd) = JBool false)
    /\ (truthy (assoc "research_timeout" fields) = false ->
        research_timeout (options rd) = JNum (300 # 1)
        /\ handle now body
           = running rd (now + 300000) EmptyString EmptyString)
    /\ (delivered (handle now body) = None
        \/ (truthy (assoc "research_timeout" fields) = true
            /\ delivered (handle now body)
               = Some (internal_error
                         "Cannot convert object to primitive value"))).
Proof.
  intros Hq Hs Ho.
  assert (Hn : member body "options" <> JNull) by congruence.
  pose proof (handle_spawns NumberToString StringToNumber round
                now body s Hq Hs Hn) as H.
  cbv zeta in H. rewrite Ho in H.
  exists (stdin_data (request_of (JStr s) (JObj fields))).
  unfold stdin_data, request_of in H |- *.
  cbn [options query depth max_sources include_contact_info
         research_timeout member wire] in H |- *.
  assert (T : truthy (assoc "research_timeout" fields) = false ->
              handle now body
              = running
                  (mkRequest (JStr s)
                     (mkOptions
                        (wire (or_else (assoc "depth" fields)
                                 (JStr "standard")))
                        (wire (or_else (assoc "max_sources" fields)
                                 (JNum (20 # 1))))
                        (wire (or_else (assoc "include_contact_info" fields)
                                 (JBool false)))
                        (JNum (300 # 1))))
                  (now + 300000) EmptyString EmptyString).
  { intro F. rewrite (or_else_falsy _ _ F) in H. exact H. }
  clear Hn.
  split.
  { destruct (times _ _) as [delay | e]; [ | destruct H as [H _]];
      rewrite H; reflexivity. }
  split; [reflexivity | ].
  repeat (split; [intro F; now rewrite (or_else_falsy _ _ F) | ]).
  split.
  { intro F. rewrite (or_else_falsy _ _ F). split; [reflexivity | ].
    rewrite (T F). reflexivity. }
  destruct (times _ _) as [delay | e] eqn:D.
  - left. rewrite H. reflexivity.
  - right. destruct H as [H _].
    apply times_throws in D as ->. split; [ | rewrite H; reflexivity].
    destruct (truthy (assoc "research_timeout" fields));
      [reflexivity | ].
    specialize (T eq_refl). rewrite H in T. discriminate T.
Qed.

End Validation_claims.

(** ** [trim] and blank queries *)

Lemma trimStart_empty_iff (s : string) :
  trimStart s = EmptyString
  <-> forallb is_white_space (list_ascii_of_string s) = true.
Proof.
  induction s as [| c s IH]; simpl.
  - split; reflexivity.
  - destruct (is_white_space c); simpl; [exact IH | ].
    split; discriminate.
Qed.

Lemma trimStart_head (s : string) :
  trimStart s = EmptyString
  \/ exists c rest, trimStart s = String c rest /\ is_white_space c = false.
Proof.
  induction s as [| c s IH]; simpl.
  - now left.
  - destruct (is_white_space c) eqn:E; [exact IH | ].
    right. now exists c, s.
Qed.

Lemma reverse_empty (s : string) : reverse s = EmptyString -> s = EmptyString.
Proof.
  unfold reverse. intro H.
  destruct s as [| c s]; [reflexivity | ].
  apply (f_equal list_ascii_of_string) in H.
  rewrite list_ascii_of_string_of_list_ascii in H. simpl in H.
  now destruct (rev (list_ascii_of_string s)).
Qed.

Lemma forallb_rev {A : Type} (p : A -> bool) (l : list A) :
  forallb p (rev l) = forallb p l.
Proof.
  induction l as [| x l IH]; simpl; [reflexivity | ].
  rewrite forallb_app, IH. simpl. rewrite andb_true_r. apply andb_comm.
Qed.

(** [!query.trim()] holds exactly for a string of white space only. *)
Lemma trim_empty_iff (s : string) :
  trim s = EmptyString
  <-> forallb is_white_space (list_ascii_of_string s) = true.
Proof.
  unfold trim, trimEnd. split.
  - intro H. apply reverse_empty in H. apply trimStart_empty_iff in H.
    unfold reverse in H.
    rewrite list_ascii_of_string_of_list_ascii, forallb_rev in H.
    destruct (trimStart_head s) as [E | [c [rest [E W]]]].
    + now apply trimStart_empty_iff.
    + rewrite E in H. simpl in H. rewrite W in H. discriminate H.
  - intro H. apply trimStart_empty_iff in H. rewrite H. reflexivity.
Qed.

Section Route_claims.
Import Server Outcome.

Variable JSON_parse : string -> Completion JsValue.
Variable Buffer_toString : Buffer -> string.
Variable NumberToString : Q -> string.
Variable StringToNumber : string -> option Q.
Variable round : Q -> option Q.

Local Notation handle := (Server.handle NumberToString StringToNumber round).
Local Notation step := (Server.step JSON_parse Buffer_toString).
Local Notation run :=
  (Server.run JSON_parse Buffer_toString NumberToString StringToNumber round).
Local Notation deadline :=
  (Outcome.deadline NumberToString StringToNumber round).

(** C10, where the route fails it.  A body whose [query] is a string of at
    least one character is not run when its [options] is [null], and only
    then: the read of [options.depth] throws, the route's [catch] answers
    500 "Internal server error", and no child is spawned.  Every other
    [options], [undefined] (which gets the default), a number, a string,
    an array or an object, has the child spawned. *)
Theorem nonempty_query_unspawned_iff_null_options
  (now : Z) (body : JsValue) (s : string) (events : list (Z * ProcEvent)) :
  member body "query" = JStr s -> s <> EmptyString ->
  let st := settle (run now body events) in
  (spawned st = None <-> member body "options" = JNull)
  /\ (member body "options" = JNull ->
      calls st
      = [internal_error "Cannot read properties of null (reading 'depth')"]
      /\ code (internal_error
                 "Cannot read properties of null (reading 'depth')") = 500).
Proof.
  intros Hq Hs st. subst st.
  destruct (JsValue_null_dec (member body "options")) as [Ho | Ho].
  - destruct (handle_null_options NumberToString StringToNumber round
                now body s Hq Hs Ho) as [_ E].
    unfold Server.run. rewrite E, steps_rejected, settle_rejected.
    split; [split; auto | ]. intros _. split; reflexivity.
  - split; [ | intro E; now elim Ho].
    split; [ | intro E; now elim Ho].
    intro N. exfalso.
    destruct (run_cases JSON_parse Buffer_toString NumberToString
                StringToNumber round now body events)
      as [[_ E] | [[e [T [_ E]]]
                  | [[s' [delay [_ [_ [_ [_ [_ R]]]]]]]
                    | [s' [e [st [_ [_ [_ [_ [_ [_ R]]]]]]]]]]]].
    + pose proof (handle_spawns NumberToString StringToNumber round
                    now body s Hq Hs Ho) as H. cbv zeta in H.
      destruct (times _ _ _ _ _); [ | destruct H as [H _]];
        rewrite H in E; discriminate E.
    + pose proof (handle_spawns NumberToString StringToNumber round
                    now body s Hq Hs Ho) as H. cbv zeta in H.
      destruct (times _ _ _ _ _); [ | destruct H as [H _]];
        rewrite H in E; discriminate E.
    + apply reached_settle, reached_spawned in R. congruence.
    + rewrite (settle_orphaned JSON_parse _ _ _ R) in N.
      apply orphaned_spawned in R. congruence.
Qed.


(** C8. Once the timer has run (the 408 is sent) and the child has not yet
    closed, the [close] event makes the first listener call [res.json]
    again on the same response, whatever the exit code: with a non-zero
    or [null] code the second call is the 500 "Research process failed",
    with code 0 it is the parsed result or the 500 for a parse failure.
    Nothing guards the call: Express throws inside the listener and the
    exception escapes it.  The client still has the 408 only. *)
Theorem close_after_timeout_sends_again
  (now : Z) (body : JsValue) (events : list (Z * ProcEvent))
  (t : Z) (exit_code : option Z) :
  let st := run now body events in
  timer st = Fired -> closed st = false ->
  let st' := step st (t, Close exit_code) in
  calls st = [request_timeout]
  /\ (exists second rest,
         calls st' = request_timeout :: second :: rest
         /\ (code second = 500 \/ code second = 200)
         /\ (nonzero exit_code = true ->
             second = process_failed (error st) /\ rest = []))
  /\ uncaught st' = [ERR_HTTP_HEADERS_SENT]
  /\ delivered st' = Some request_timeout.
Proof.
  intros st Ht Hc st'. subst st st'.
  destruct (run_cases JSON_parse Buffer_toString NumberToString
              StringToNumber round now body events)
    as [[E _] | [[e [_ [E _]]]
                | [[s [delay [_ [_ [_ [_ [_ R]]]]]]]
                  | [s [e [st [_ [_ [_ [_ [_ [_ R]]]]]]]]]]]].
  - rewrite E in Ht. discriminate Ht.
  - rewrite E in Ht. discriminate Ht.
  - cbv zeta in R.
    destruct R as [out err | out err | out err c | out err c];
      try discriminate Ht; try discriminate Hc.
    rewrite step_timed_out_close.
    split; [reflexivity | ].
    split; [ | split; reflexivity].
    unfold closed_late, late_calls. cbn [calls].
    destruct (nonzero exit_code) eqn:N.
    + eexists _, _. split; [reflexivity | ].
      split; [left; reflexivity | ]. intros _. split; reflexivity.
    + destruct (JSON_parse out) as [v | e].
      * eexists _, _. split; [reflexivity | ].
        split; [right; reflexivity | ]. discriminate.
      * eexists _, _. split; [reflexivity | ].
        split; [left; reflexivity | ]. discriminate.
  - destruct R; discriminate Ht.
Qed.

End Route_claims.

(** ** What the child wrote, and the responses built from it *)

Section Streams.
Import Server Outcome.

Variable JSON_parse : string -> Completion JsValue.
Variable Buffer_toString : Buffer -> string.

Local Notation step := (Server.step JSON_parse Buffer_toString).
Local Notation Reached := (Outcome.Reached JSON_parse).
Local Notation completed := (Outcome.completed JSON_parse).
Local Notation close_response := (Outcome.close_response JSON_parse).
Local Notation late_calls := (Outcome.late_calls JSON_parse).
Local Notation stdout_until_close :=
  (Outcome.stdout_until_close Buffer_toString).
Local Notation stderr_until_close :=
  (Outcome.stderr_until_close Buffer_toString).

Variables (rd : RequestData) (due : Z).

Lemma steps_timed_out_streams (events : list (Z * ProcEvent)) :
  forall out err,
    let st := fold_left step events (timed_out rd out err) in
    output st = (out ++ stdout_until_close events)%string
    /\ error st = (err ++ stderr_until_close events)%string.
Proof.
  induction events as [| [t [data | data | exit_code]] rest IH];
    intros out err; cbv zeta; cbn [fold_left].
  - cbn. now rewrite !append_empty_r.
  - rewrite step_timed_out_stdout.
    cbn [Outcome.stdout_until_close Outcome.stderr_until_close].
    rewrite <- append_associative. apply IH.
  - rewrite step_timed_out_stderr.
    cbn [Outcome.stdout_until_close Outcome.stderr_until_close].
    rewrite <- append_associative. apply IH.
  - rewrite step_timed_out_close, steps_closed_late. cbn.
    now rewrite !append_empty_r.
Qed.

(** [output] and [error] hold what the child wrote until it closed, as the
    listeners decoded it. *)
Lemma steps_running_streams (events : list (Z * ProcEvent)) :
  forall out err,
    let st := fold_left step events (running rd due out err) in
    output st = (out ++ stdout_until_close events)%string
    /\ error st = (err ++ stderr_until_close events)%string.
Proof.
  induction events as [| [t ev] rest IH]; intros out err; cbv zeta;
    cbn [fold_left].
  - cbn. now rewrite !append_empty_r.
  - destruct (Z.lt_ge_cases t due) as [Hlt | Hge].
    + destruct ev as [data | data | exit_code].
      * rewrite step_running_stdout by exact Hlt.
        cbn [Outcome.stdout_until_close Outcome.stderr_until_close].
        rewrite <- append_associative. apply IH.
      * rewrite step_running_stderr by exact Hlt.
        cbn [Outcome.stdout_until_close Outcome.stderr_until_close].
        rewrite <- append_associative. apply IH.
      * rewrite step_running_close, steps_completed by exact Hlt. cbn.
        now rewrite !append_empty_r.
    + rewrite step_running_late by exact Hge.
      apply (steps_timed_out_streams ((t, ev) :: rest)).
Qed.

Lemma steps_orphaned_streams (r : Response) (events : list (Z * ProcEvent)) :
  forall out err,
    let st := fold_left step events (orphaned rd r out err) in
    output st = (out ++ stdout_until_close events)%string
    /\ error st = (err ++ stderr_until_close events)%string.
Proof.
  induction events as [| [t [data | data | exit_code]] rest IH];
    intros out err; cbv zeta; cbn [fold_left].
  - cbn. now rewrite !append_empty_r.
  - rewrite step_orphaned_stdout.
    cbn [Outcome.stdout_until_close Outcome.stderr_until_close].
    rewrite <- append_associative. apply IH.
  - rewrite step_orphaned_stderr.
    cbn [Outcome.stdout_until_close Outcome.stderr_until_close].
    rewrite <- append_associative. apply IH.
  - rewrite step_orphaned_close, steps_orphan_closed. cbn.
    now rewrite !append_empty_r.
Qed.

Lemma settle_streams (st : State) :
  output (settle st) = output st /\ error (settle st) = error st.
Proof.
  unfold settle, tick. destruct (timer st); try (split; reflexivity).
  destruct (Z.leb due0 due0); [ | split; reflexivity].
  unfold run_callback, on_timeout, bind, modify, res_json. cbn [calls].
  destruct (calls st); split; reflexivity.
Qed.



End Streams.

Section Failure_facts.
Import Server Outcome.

Variable JSON_parse : string -> Completion JsValue.
Variable Buffer_toString : Buffer -> string.
Variable NumberToString : Q -> string.
Variable StringToNumber : string -> option Q.
Variable round : Q -> option Q.

Variables (now : Z) (body : JsValue) (events : list (Z * ProcEvent)).

Local Notation Failure :=
  (Outcome.Failure JSON_parse Buffer_toString NumberToString StringToNumber
     round now body events).
Local Notation close_response := (Outcome.close_response JSON_parse).
Local Notation late_calls := (Outcome.late_calls JSON_parse).
Local Notation stdout_until_close :=
  (Outcome.stdout_until_close Buffer_toString).
Local Notation stderr_until_close :=
  (Outcome.stderr_until_close Buffer_toString).

Lemma close_response_cases (exit_code : option Z) :
  (exists result,
      close_response exit_code (stdout_until_close events)
        (stderr_until_close events) = success result)
  \/ Failure (close_response exit_code (stdout_until_close events)
                (stderr_until_close events)).
Proof.
  unfold Outcome.close_response.
  destruct (nonzero exit_code); [right; constructor | ].
  destruct (JSON_parse (stdout_until_close events)) as [v | e] eqn:P;
    [left; now exists v | right; now constructor].
Qed.

Lemma late_calls_cases (exit_code : option Z) (r : Response) :
  In r (late_calls exit_code (stdout_until_close events)
          (stderr_until_close events)) ->
  (exists result, r = success result) \/ Failure r.
Proof.
  unfold Outcome.late_calls.
  destruct (nonzero exit_code).
  - intros [<- | []]. right; constructor.
  - destruct (JSON_parse (stdout_until_close events)) as [v | e] eqn:P.
    + intros [<- | [<- | []]];
        [left; now exists v | right; now apply failure_parse_resend with v].
    + intros [<- | []]. right; now constructor.
Qed.

Lemma failure_facts (r : Response) :
  Failure r ->
  (code r = 400 \/ code r = 408 \/ code r = 500)
  /\ (exists msg, member (payload r) "error" = JStr msg
                  /\ In msg error_messages)
  /\ member (payload r) "kind" = JUndefined
  /\ (member (payload r) "details" = JUndefined
      \/ exists details, member (payload r) "details" = JStr details).
Proof.
  intros [ | | | e P | v P | e st T]; cbn.
  - split; [auto | ]. split; [eexists; split; [reflexivity | cbn; auto] | auto].
  - split; [auto | ]. split; [eexists; split; [reflexivity | cbn; auto] | auto].
  - split; [auto | ]. split; [eexists; split; [reflexivity | cbn; auto] | ].
    split; [reflexivity | right].
    unfold or_else. destruct (truthy _); eexists; reflexivity.
  - split; [auto | ]. split; [eexists; split; [reflexivity | cbn; auto 6] | ].
    split; [reflexivity | right; eexists; reflexivity].
  - split; [auto | ]. split; [eexists; split; [reflexivity | cbn; auto 6] | ].
    split; [reflexivity | right; eexists; reflexivity].
  - split; [auto | ]. split; [eexists; split; [reflexivity | cbn; auto 6] | ].
    split; [reflexivity | right; eexists; reflexivity].
Qed.

End Failure_facts.

Section Response_claims.
Import Server Outcome Trace.

Variable JSON_parse : string -> Completion JsValue.
Variable Buffer_toString : Buffer -> string.
Variable NumberToString : Q -> string.
Variable StringToNumber : string -> option Q.
Variable round : Q -> option Q.

Local Notation times := (Js.times NumberToString StringToNumber round).
Local Notation handle := (Server.handle NumberToString StringToNumber round).
Local Notation step := (Server.step JSON_parse Buffer_toString).
Local Notation run :=
  (Server.run JSON_parse Buffer_toString NumberToString StringToNumber round).
Local Notation deadline :=
  (Outcome.deadline NumberToString StringToNumber round).
Local Notation Reached := (Outcome.Reached JSON_parse).
Local Notation completed := (Outcome.completed JSON_parse).
Local Notation stdout_until_close :=
  (Outcome.stdout_until_close Buffer_toString).
Local Notation stderr_until_close :=
  (Outcome.stderr_until_close Buffer_toString).
Local Notation Failure :=
  (Outcome.Failure JSON_parse Buffer_toString NumberToString StringToNumber
     round).

Lemma run_streams (now : Z) (body : JsValue) (events : list (Z * ProcEvent))
  (rd : RequestData) :
  spawned (handle now body) = Some rd ->
  let st := settle (run now body events) in
  output st = stdout_until_close events
  /\ error st = stderr_until_close events.
Proof.
  intro S. cbv zeta. unfold Server.run.
  destruct (settle_streams (fold_left step events (handle now body)))
    as [-> ->].
  destruct (handle_cases NumberToString StringToNumber round now body)
    as [E | [[e [_ E]] | [s [_ [_ [_ [[delay [_ E]] | [e [st [_ [_ E]]]]]]]]]]];
    rewrite E in S |- *; try discriminate S.
  - apply (steps_running_streams JSON_parse Buffer_toString _ _ events
             EmptyString EmptyString).
  - apply (steps_orphaned_streams JSON_parse Buffer_toString _ _ events
             EmptyString EmptyString).
Qed.

(** Every call of [res.json] with a status other than 200 is one of the
    route's failures. *)
Lemma sent_failure
  (now : Z) (body : JsValue) (events : list (Z * ProcEvent)) (r : Response) :
  In r (calls (settle (run now body events))) -> code r <> 200 ->
  Failure now body events r.
Proof.
  intros Hin Hcode.
  destruct (run_cases JSON_parse Buffer_toString NumberToString
              StringToNumber round now body events)
    as [[E _] | [[e [T [E _]]]
                | [[s [delay [_ [_ [_ [_ [A R]]]]]]]
                  | [s [e [st [_ [_ [_ [_ [T [A R]]]]]]]]]]]].
  - rewrite E, settle_rejected in Hin. destruct Hin as [<- | []]. constructor.
  - rewrite E, settle_rejected in Hin. destruct Hin as [<- | []].
    now apply failure_internal with init.
  - cbv zeta in A, R.
    destruct (run_streams now body events _ ltac:(rewrite A; reflexivity))
      as [Hout Herr].
    apply reached_settle in R.
    destruct R as [out err | out err | out err c | out err c];
      cbn [calls output error running timed_out Outcome.completed
             Outcome.closed_late] in *; subst out err.
    + destruct Hin.
    + destruct Hin as [<- | []]. constructor.
    + destruct Hin as [<- | []].
      destruct (close_response_cases JSON_parse Buffer_toString
                  NumberToString StringToNumber round now body events c)
        as [[v Ev] | F]; [ | exact F].
      rewrite Ev in Hcode. now elim Hcode.
    + destruct Hin as [<- | Hin]; [constructor | ].
      destruct (late_calls_cases JSON_parse Buffer_toString NumberToString
                  StringToNumber round now body events c r Hin)
        as [[v ->] | F]; [now elim Hcode | exact F].
  - cbv zeta in A, R.
    destruct (run_streams now body events _ ltac:(rewrite A; reflexivity))
      as [Hout Herr].
    rewrite (settle_orphaned JSON_parse _ _ _ R) in Hin, Hout, Herr.
    destruct R as [out err | out err c];
      cbn [calls output error orphaned Outcome.orphan_closed] in *;
      subst out err.
    + destruct Hin as [<- | []]. now apply failure_internal with st.
    + destruct Hin as [<- | Hin]; [now apply failure_internal with st | ].
      destruct (late_calls_cases JSON_parse Buffer_toString NumberToString
                  StringToNumber round now body events c r Hin)
        as [[v ->] | F]; [now elim Hcode | exact F].
Qed.

(** C4 (as amended). Every response of the route other than the relayed
    result has status 400, 408 or 500 and a JSON body whose [error] member
    is one of five fixed messages; the body has no [kind] member, and it
    may have a [details] string.  For a child that closed with a non-zero
    or [null] exit code, [details] is what the child wrote to stderr, each
    chunk as the route decoded it on its own, or "Unknown error occurred"
    when that is empty; for a parse failure it is the message of the
    exception [JSON.parse] threw on the decoded stdout, or of the one
    [res.json] threw on the parsed result because a response had been
    sent; for an exception in the route it is that exception's message. *)
Theorem failure_response_has_fixed_error_and_raw_details
  (now : Z) (body : JsValue) (events : list (Z * ProcEvent)) (r : Response) :
  let st := settle (run now body events) in
  In r (calls st) -> code r <> 200 ->
  Failure now body events r
  /\ (code r = 400 \/ code r = 408 \/ code r = 500)
  /\ (exists msg, member (payload r) "error" = JStr msg
                  /\ In msg error_messages)
  /\ member (payload r) "kind" = JUndefined
  /\ (member (payload r) "details" = JUndefined
      \/ exists details, member (payload r) "details" = JStr details).
Proof.
  intros st Hin Hcode.
  pose proof (sent_failure now body events r Hin Hcode) as F.
  split; [exact F | exact (failure_facts _ _ _ _ _ _ _ _ _ F)].
Qed.


(** The state of a request whose listeners saw every event before the
    deadline. *)
Lemma steps_running_in_time (rd : RequestData) (due : Z)
  (events : list (Z * ProcEvent)) :
  forall out err,
    Forall (fun e => fst e < due) (until_close events) ->
    fold_left step events (running rd due out err)
    = match first_close events with
      | Some (_, exit_code) =>
          completed rd (out ++ stdout_until_close events)
            (err ++ stderr_until_close events) exit_code
      | None =>
          running rd due (out ++ stdout_until_close events)
            (err ++ stderr_until_close events)
      end.
Proof.
  induction events as [| [t ev] rest IH]; intros out err H.
  - cbn. now rewrite !append_empty_r.
  - destruct ev as [data | data | exit_code];
      cbn [until_close] in H; inversion H as [| e l Ht Hrest]; subst;
      cbn [fst] in Ht; cbn [fold_left].
    + rewrite step_running_stdout by exact Ht.
      rewrite (IH _ _ Hrest).
      cbn [first_close Outcome.stdout_until_close
             Outcome.stderr_until_close].
      now rewrite append_associative.
    + rewrite step_running_stderr by exact Ht.
      rewrite (IH _ _ Hrest).
      cbn [first_close Outcome.stdout_until_close
             Outcome.stderr_until_close].
      now rewrite append_associative.
    + rewrite step_running_close, steps_completed by exact Ht.
      cbn [first_close Outcome.stdout_until_close
             Outcome.stderr_until_close].
      now rewrite !append_empty_r.
Qed.





(** The request the form posts passes the validation: it is run with 15
    sources and a deadline of 120 seconds. *)
Lemma posted_request_accepted (now : Z) (q : string) :
  trim q <> EmptyString ->
  handle now (Client.request_body q)
  = running (mkRequest (JStr q)
               (mkOptions (JStr "standard") (JNum (15 # 1)) (JBool false)
                  (JNum (120 # 1))))
      (now + 120000) EmptyString EmptyString.
Proof.
  intro H.
  assert (Hq : q <> EmptyString) by (intros ->; now apply H).
  pose proof (handle_spawns NumberToString StringToNumber round now
                (Client.request_body q) q eq_refl Hq ltac:(discriminate))
    as A.
  exact A.
Qed.


End Response_claims.

(** ** The form *)

Lemma status_tags_exact (name : string) :
  In name status_tags <-> exists t, tag_name t = name.
Proof.
  split.
  - cbn. intros [<- | [<- | [<- | [<- | [<- | [<- | [<- | [<- | []]]]]]]]];
      [ exists starting | exists expanding | exists searching
      | exists scraping | exists ranking | exists synthesizing
      | exists complete | exists error ]; reflexivity.
  - intros [[] <-]; cbn; auto 10.
Qed.

Lemma status_without_progress (t : StatusTag) (msg : string) :
  In (tag_name (status (mkStatus t msg None))) status_tags
  /\ progress_in_range (mkStatus t msg None).
Proof.
  split; [apply status_tags_exact; now exists t | exact I].
Qed.

Lemma receive_cases (NumberToString : Q -> string)
  (outcome : Client.FetchOutcome) (form : Client.State) :
  (exists thrown, Client.receive NumberToString outcome form = inl thrown)
  \/ (exists researchResult,
         Client.receive NumberToString outcome form
         = inr (Client.setStatus (mkStatus complete "Research complete!" None)
                  (Client.setResult (Some researchResult) form))).
Proof.
  destruct outcome as [reason | [|] [v | e]]; cbn.
  - left. now exists reason.
  - right. now exists v.
  - left. eexists. reflexivity.
  - left. destruct (get v "error") as [msg | e]; [ | eexists; reflexivity].
    destruct (Js.ToString NumberToString _); eexists; reflexivity.
  - left. eexists. reflexivity.
Qed.

(** C5. A submitted request (a query that is not blank) sets exactly two
    statuses, in this order: [starting], then [complete] or [error], which is
    the status the form is left with; each has one of the eight tags of the
    [status] union, which are exactly "starting", "expanding", "searching",
    "scraping", "ranking", "synthesizing", "complete" and "error", and its
    optional [progress], absent here, is within 0 and 100. *)
Theorem submit_statuses_end_in_complete_or_error
  (NumberToString : Q -> string) (outcome : Client.FetchOutcome)
  (form : Client.State) :
  trim (Client.query form) <> EmptyString ->
  let after := Client.handleSubmit NumberToString outcome form in
  exists first final,
    Client.statuses after = Client.statuses form ++ [first; final]
    /\ status first = starting
    /\ (status final = complete \/ status final = error)
    /\ Client.status after = Some final
    /\ Forall (fun s => In (tag_name (status s)) status_tags
                        /\ progress_in_range s) [first; final]
    /\ (forall name, In name status_tags <-> exists t, tag_name t = name).
Proof.
  intros Hq after. subst after. unfold Client.handleSubmit.
  destruct (String.eqb_spec (trim (Client.query form)) EmptyString) as [E | _];
    [now elim Hq | ].
  match goal with
  | |- context [Client.receive ?f ?o ?st] =>
      destruct (receive_cases f o st) as [[thrown ->] | [v ->]]
  end.
  - eexists _, _. cbn. rewrite <- app_assoc.
    split; [reflexivity | ]. split; [reflexivity | ].
    split; [right; reflexivity | ]. split; [reflexivity | ].
    split; [ | exact status_tags_exact].
    repeat (apply Forall_cons; [apply status_without_progress | ]).
    apply Forall_nil.
  - eexists _, _. cbn. rewrite <- app_assoc.
    split; [reflexivity | ]. split; [reflexivity | ].
    split; [left; reflexivity | ]. split; [reflexivity | ].
    split; [ | exact status_tags_exact].
    repeat (apply Forall_cons; [apply status_without_progress | ]).
    apply Forall_nil.
Qed.


(** * The claims on concrete requests *)

Section Examples.
Import Server Outcome Trace Sample.

Local Notation handle :=
  (Server.handle Sample.NumberToString Sample.StringToNumber Sample.round).
Local Notation step := (Server.step Sample.JSON_parse Sample.Buffer_toString).
Local Notation run :=
  (Server.run Sample.JSON_parse Sample.Buffer_toString Sample.NumberToString
     Sample.StringToNumber Sample.round).
Local Notation deadline :=
  (Outcome.deadline Sample.NumberToString Sample.StringToNumber
     Sample.round).
Local Notation stdout_until_close :=
  (Outcome.stdout_until_close Sample.Buffer_toString).
Local Notation stderr_until_close :=
  (Outcome.stderr_until_close Sample.Buffer_toString).
Local Notation Failure :=
  (Outcome.Failure Sample.JSON_parse Sample.Buffer_toString
     Sample.NumberToString Sample.StringToNumber Sample.round).

(** C1 on a body with an empty query, followed by the events of a child
    that was never spawned. *)
Lemma invalid_query_rejected_witness :
  (empty_query <> JUndefined /\ empty_query <> JNull
   /\ member empty_query "query" = JStr EmptyString)
  /\ delivered (settle (run 0 empty_query quick_child))
     = Some invalid_request
  /\ spawned (settle (run 0 empty_query quick_child)) = None.
Proof.
  split; [repeat split; discriminate | ].
  destruct (invalid_query_rejected_without_pipeline_run
              Sample.JSON_parse Sample.Buffer_toString Sample.NumberToString
              Sample.StringToNumber Sample.round 0 empty_query quick_child)
    as [_ [D [_ [_ [S _]]]]];
    [discriminate | discriminate | right; left; reflexivity | ].
  split; assumption.
Defined.

(** C2 as stated fails: a body with an unknown depth, a negative number of
    sources, a string for [include_contact_info] and a negative timeout is
    accepted, and the child receives these values. *)
Lemma unchecked_options_are_spawned :
  exists rd,
    spawned (handle 0 unchecked_options) = Some rd
    /\ delivered (handle 0 unchecked_options) = None
    /\ Claimed.request_shape rd = false
    /\ depth (options rd) = JStr "exhaustive"
    /\ max_sources (options rd) = JNum (-5 # 1)
    /\ include_contact_info (options rd) = JStr "yes"
    /\ research_timeout (options rd) = JNum (-1 # 1).
Proof. eexists. repeat split. Qed.

(** The amended C2 on a body whose [depth] is [Infinity]: the child is
    spawned and reads [null] for it. *)
Lemma spawned_request_shape_witness :
  spawned (run 0 infinite_depth quick_child)
  = Some (stdin_data (request_of (JStr "x") (member infinite_depth "options")))
  /\ depth (options
              (stdin_data
                 (request_of (JStr "x") (member infinite_depth "options"))))
     = JNull
  /\ truthy (research_timeout
               (options
                  (stdin_data
                     (request_of (JStr "x")
                        (member infinite_depth "options")))))
     = true.
Proof.
  split; [reflexivity | ].
  destruct (spawned_request_shape Sample.JSON_parse Sample.Buffer_toString
              Sample.NumberToString Sample.StringToNumber Sample.round 0
              infinite_depth quick_child _ eq_refl)
    as [_ [D [_ [_ [_ [_ [_ [[T | [T _]] _]]]]]]]].
  - split; [exact D | exact T].
  - discriminate T.
Defined.

(** C9 on the four falsy values the claim names. *)
Lemma falsy_option_replaced_witness :
  (member falsy_options "query" = JStr "x" /\ "x" <> EmptyString
   /\ member falsy_options "options" = JObj falsy_fields
   /\ truthy (assoc "depth" falsy_fields) = false
   /\ truthy (assoc "max_sources" falsy_fields) = false
   /\ truthy (assoc "include_contact_info" falsy_fields) = false
   /\ truthy (assoc "research_timeout" falsy_fields) = false)
  /\ exists rd,
       spawned (handle 0 falsy_options) = Some rd
       /\ options rd
          = mkOptions (JStr "standard") (JNum (20 # 1)) (JBool false)
              (JNum (300 # 1))
       /\ timer (handle 0 falsy_options) = Armed 300000.
Proof.
  split; [repeat split; discriminate | ].
  destruct (falsy_option_replaced_by_default Sample.NumberToString
              Sample.StringToNumber Sample.round 0
              falsy_options "x" falsy_fields
              eq_refl ltac:(discriminate) eq_refl)
    as [rd [E [_ [D [M [C [T _]]]]]]].
  exists rd. split; [exact E | ].
  destruct (T eq_refl) as [R A]. rewrite A. split; [ | reflexivity].
  destruct rd as [q [d m c t]]. cbn in *.
  now rewrite (D eq_refl), (M eq_refl), (C eq_refl), R.
Defined.

(** C10 on a body with [options: null], whatever a child would do. *)
Lemma null_options_witness :
  (member null_options "query" = JStr "x" /\ "x" <> EmptyString
   /\ member null_options "options" = JNull)
  /\ spawned (settle (run 0 null_options quick_child)) = None
  /\ calls (settle (run 0 null_options quick_child))
     = [internal_error "Cannot read properties of null (reading 'depth')"].
Proof.
  split; [repeat split; discriminate | ].
  destruct (nonempty_query_unspawned_iff_null_options
              Sample.JSON_parse Sample.Buffer_toString Sample.NumberToString
              Sample.StringToNumber Sample.round 0 null_options "x"
              quick_child eq_refl ltac:(discriminate))
    as [[_ S] C].
  split; [exact (S eq_refl) | exact (proj1 (C eq_refl))].
Defined.


(** C8 on a child that closes with exit code 1 after the timer ran. *)
Lemma close_after_timeout_witness :
  (timer (run 0 two_seconds overdue_child) = Fired
   /\ closed (run 0 two_seconds overdue_child) = false)
  /\ calls (step (run 0 two_seconds overdue_child) (2600, Close (Some 1)))
     = [request_timeout; process_failed EmptyString]
  /\ uncaught (step (run 0 two_seconds overdue_child) (2600, Close (Some 1)))
     = [ERR_HTTP_HEADERS_SENT].
Proof.
  split; [split; reflexivity | ].
  destruct (close_after_timeout_sends_again
              Sample.JSON_parse Sample.Buffer_toString Sample.NumberToString
              Sample.StringToNumber Sample.round 0
              two_seconds overdue_child 2600 (Some 1) eq_refl eq_refl)
    as [_ [[second [rest [E [_ N]]]] [U _]]].
  destruct (N eq_refl) as [-> ->].
  split; [exact E | exact U].
Defined.

(** C4 as stated fails: when the child exits with code 1, what it wrote to
    stderr, here a traceback with a credential, is the [details] of the
    500 response, and the body has no [kind]. *)
Lemma process_failure_forwards_stderr :
  delivered (settle (run 0 two_seconds failing_child))
  = Some (mkResponse 500
            (JObj [("error", JStr "Research process failed");
                   ("details", JStr traceback)]))
  /\ Claimed.discloses "Traceback (most recent call last)"
       (process_failed traceback) = true
  /\ Claimed.discloses "MISTRAL_API_KEY=sk-live-1234"
       (process_failed traceback) = true
  /\ Claimed.has_kind_and_message (process_failed traceback) = false.
Proof. repeat split. Qed.

(** The amended C4 on that response. *)
Lemma failure_response_witness :
  (In (process_failed traceback)
      (calls (settle (run 0 two_seconds failing_child)))
   /\ code (process_failed traceback) <> 200)
  /\ Failure 0 two_seconds failing_child (process_failed traceback)
  /\ member (payload (process_failed traceback)) "kind" = JUndefined.
Proof.
  split; [split; [left; reflexivity | discriminate] | ].
  destruct (failure_response_has_fixed_error_and_raw_details
              Sample.JSON_parse Sample.Buffer_toString Sample.NumberToString
              Sample.StringToNumber Sample.round 0
              two_seconds failing_child (process_failed traceback)
              (or_introl eq_refl) ltac:(discriminate))
    as [F [_ [_ [K _]]]].
  split; [exact F | exact K].
Defined.







(** C5 on a submit whose response is the 408 of the route. *)
Lemma submit_statuses_witness :
  trim (Client.query (Client.initial "x")) <> EmptyString
  /\ map status
       (Client.statuses
          (Client.handleSubmit Sample.NumberToString
             (Client.Resolved false (Normal (payload request_timeout)))
             (Client.initial "x")))
     = [starting; Schema.error].
Proof.
  split; [discriminate | ].
  destruct (submit_statuses_end_in_complete_or_error
              Sample.NumberToString
              (Client.Resolved false (Normal (payload request_timeout)))
              (Client.initial "x") ltac:(discriminate))
    as [first [final [E _]]].
  rewrite E. cbn in E. injection E as <- <-. reflexivity.
Defined.

End Examples.

(** * Further properties of the route *)

Section Route_properties.
Import Server Outcome Trace.

Variable JSON_parse : string -> Completion JsValue.
Variable Buffer_toString : Buffer -> string.
Variable NumberToString : Q -> string.
Variable StringToNumber : string -> option Q.
Variable round : Q -> option Q.

Local Notation handle := (Server.handle NumberToString StringToNumber round).
Local Notation step := (Server.step JSON_parse Buffer_toString).
Local Notation run :=
  (Server.run JSON_parse Buffer_toString NumberToString StringToNumber round).
Local Notation deadline :=
  (Outcome.deadline NumberToString StringToNumber round).
Local Notation Reached := (Outcome.Reached JSON_parse).
Local Notation completed := (Outcome.completed JSON_parse).
Local Notation close_response := (Outcome.close_response JSON_parse).
Local Notation stdout_until_close :=
  (Outcome.stdout_until_close Buffer_toString).
Local Notation stderr_until_close :=
  (Outcome.stderr_until_close Buffer_toString).
Local Notation Failure :=
  (Outcome.Failure JSON_parse Buffer_toString NumberToString StringToNumber
     round).

(** X1. Every request is answered: once the pending timer has had its turn
    the client has a response, whatever the body and whatever the child
    does, even if it never closes. *)
Theorem every_request_answered
  (now : Z) (body : JsValue) (events : list (Z * ProcEvent)) :
  exists r, delivered (settle (run now body events)) = Some r.
Proof.
  destruct (run_cases JSON_parse Buffer_toString NumberToString
              StringToNumber round now body events)
    as [[E _] | [[e [_ [E _]]]
                | [[s [delay [_ [_ [_ [_ [_ R]]]]]]]
                  | [s [e [st [_ [_ [_ [_ [_ [_ R]]]]]]]]]]]].
  - rewrite E. eexists. reflexivity.
  - rewrite E. eexists. reflexivity.
  - cbv zeta in R.
    destruct R as [out err | out err | out err c | out err c];
      try (eexists; reflexivity).
    rewrite settle_running. eexists. reflexivity.
  - rewrite (settle_orphaned JSON_parse _ _ _ R).
    destruct R; eexists; reflexivity.
Qed.

(** X3. For a request run with a numeric [research_timeout], [res.json] is
    called a second time only after the timer has run: as long as it has
    not, at most one response was sent and no exception escaped a
    callback. *)
Theorem second_send_only_after_timeout
  (now : Z) (body : JsValue) (events : list (Z * ProcEvent))
  (rd : RequestData) (q : Q) :
  spawned (handle now body) = Some rd ->
  research_timeout (options rd) = JNum q ->
  timer (run now body events) <> Fired ->
  (length (calls (run now body events)) <= 1)%nat
  /\ uncaught (run now body events) = []
  /\ killed (run now body events) = false.
Proof.
  intros Hs Hq Ht. apply spawned_handle with (q := q) in Hs; [ | exact Hq].
  unfold Server.run in *. rewrite Hs in *.
  pose proof (steps_reached JSON_parse Buffer_toString rd (deadline now rd)
                events _
                (reached_running JSON_parse rd (deadline now rd)
                   EmptyString EmptyString)) as R.
  destruct R as [out err | out err | out err c | out err c]; cbn in *;
    try (now elim Ht); auto.
Qed.

(** X4. The child is killed by the timer and by nothing else: at every
    point of every request, [kill()] has been called exactly when the
    timer has run. *)
Theorem killed_iff_timer_fired
  (now : Z) (body : JsValue) (events : list (Z * ProcEvent)) :
  killed (run now body events) = true <-> timer (run now body events) = Fired.
Proof.
  destruct (run_cases JSON_parse Buffer_toString NumberToString
              StringToNumber round now body events)
    as [[E _] | [[e [_ [E _]]]
                | [[s [delay [_ [_ [_ [_ [_ R]]]]]]]
                  | [s [e [st [_ [_ [_ [_ [_ [_ R]]]]]]]]]]]].
  - rewrite E. split; discriminate.
  - rewrite E. split; discriminate.
  - cbv zeta in R. destruct R; cbn; split; congruence.
  - destruct R; cbn; split; discriminate.
Qed.

(** X5. A child that closes before the deadline decides the response, once:
    with a non-zero or [null] exit code the 500 "Research process failed"
    with its stderr, whatever it printed on stdout; with exit code 0 the
    200 with the value parsed from its stdout, or the 500 "Failed to parse
    research results" when the stdout is not JSON.  The child is not
    killed. *)
Theorem close_in_time_decides_response
  (now : Z) (body : JsValue) (events : list (Z * ProcEvent))
  (rd : RequestData) (q : Q) (t : Z) (exit_code : option Z) :
  spawned (handle now body) = Some rd ->
  research_timeout (options rd) = JNum q ->
  Forall (fun e => fst e < deadline now rd) (until_close events) ->
  first_close events = Some (t, exit_code) ->
  let st := run now body events in
  (exists r, calls st = [r])
  /\ (nonzero exit_code = true ->
      delivered st = Some (process_failed (stderr_until_close events)))
  /\ (forall result,
         exit_code = Some 0 ->
         JSON_parse (stdout_until_close events) = Normal result ->
         delivered st = Some (success result))
  /\ (forall e,
         exit_code = Some 0 ->
         JSON_parse (stdout_until_close events) = Throw e ->
         delivered st = Some (parse_failed (err_message e)))
  /\ killed st = false /\ uncaught st = [] /\ timer st = Cleared.
Proof.
  intros Hs Hq Hin Hfc st. subst st.
  apply spawned_handle with (q := q) in Hs; [ | exact Hq].
  unfold Server.run. rewrite Hs.
  rewrite (steps_running_in_time JSON_parse Buffer_toString rd
             (deadline now rd) events _ _ Hin), Hfc.
  cbn [append]. unfold Outcome.completed, delivered. cbn [calls hd_error].
  split; [eexists; reflexivity | ].
  unfold Outcome.close_response.
  split; [intros ->; reflexivity | ].
  split; [intros v -> ->; reflexivity | ].
  split; [intros e -> ->; reflexivity | ].
  repeat split.
Qed.

(** X6. While the child runs and the deadline has not come, the route sends
    nothing and kills nothing: chunks of stdout and stderr are only
    appended, in order and each decoded on its own, to [output] and
    [error]. *)
Theorem running_child_only_accumulates
  (now : Z) (body : JsValue) (events : list (Z * ProcEvent))
  (rd : RequestData) (q : Q) :
  spawned (handle now body) = Some rd ->
  research_timeout (options rd) = JNum q ->
  Forall (fun e => fst e < deadline now rd) events ->
  first_close events = None ->
  let st := run now body events in
  calls st = [] /\ killed st = false
  /\ timer st = Armed (deadline now rd)
  /\ output st = stdout_until_close events
  /\ error st = stderr_until_close events.
Proof.
  intros Hs Hq Hin Hfc st. subst st.
  apply spawned_handle with (q := q) in Hs; [ | exact Hq].
  unfold Server.run. rewrite Hs.
  assert (U : until_close events = events).
  { clear Hin. induction events as [| [t [d | d | c]] rest IH];
      cbn in *; try discriminate; try reflexivity; now rewrite IH. }
  rewrite <- U in Hin.
  rewrite (steps_running_in_time JSON_parse Buffer_toString rd
             (deadline now rd) events _ _ Hin), Hfc.
  repeat split.
Qed.

(** X23. For a request run with a numeric [research_timeout], a child that
    has not closed when the timer is due ([research_timeout * 1000] ms
    after the spawn, or 1 ms where that is no delay Node accepts) is
    killed, and the client receives the 408 "Research request timed out",
    never a 200 with a result, whatever the child emits afterwards. *)
Theorem overdue_request_killed_and_answered_408
  (now : Z) (body : JsValue) (events : list (Z * ProcEvent))
  (rd : RequestData) (q : Q) :
  spawned (handle now body) = Some rd ->
  research_timeout (options rd) = JNum q ->
  (forall t exit_code,
      In (t, Close exit_code) events -> deadline now rd <= t) ->
  let st := settle (run now body events) in
  killed st = true
  /\ delivered st = Some request_timeout
  /\ code request_timeout = 408
  /\ (forall result, delivered st <> Some (success result)).
Proof.
  intros Hs Hq Hlate.
  apply spawned_handle with (q := q) in Hs; [ | exact Hq].
  unfold Server.run. rewrite Hs.
  destruct (steps_running_overdue JSON_parse Buffer_toString rd
              (deadline now rd) events EmptyString EmptyString Hlate)
    as [_ [K D]].
  cbv zeta. rewrite K, D. repeat split. discriminate.
Qed.

(** The 400 is sent exactly when the query check fails. *)
Lemma invalid_request_iff_check (now : Z) (body : JsValue) :
  body <> JUndefined -> body <> JNull ->
  (delivered (handle now body) = Some invalid_request
   <-> negb (truthy (member body "query"))
       || negb (String.eqb (typeof (member body "query")) "string") = true).
Proof.
  intros H1 H2.
  destruct (negb (truthy (member body "query"))
            || negb (String.eqb (typeof (member body "query")) "string"))
    eqn:Hq.
  - rewrite (handle_invalid NumberToString StringToNumber round
               now body H1 H2 Hq).
    split; reflexivity.
  - apply query_check in Hq as [s [Hs Hn]].
    split; [ | discriminate].
    intro D. exfalso.
    destruct (JsValue_null_dec (member body "options")) as [Ho | Ho].
    + destruct (handle_null_options NumberToString StringToNumber round
                  now body s Hs Hn Ho) as [_ E].
      rewrite E in D. discriminate D.
    + pose proof (handle_spawns NumberToString StringToNumber round
                    now body s Hs Hn Ho) as H. cbv zeta in H.
      destruct (times _ _ _ _ _); [ | destruct H as [H _]];
        rewrite H in D; discriminate D.
Qed.

(** X10. The 400 is the answer exactly to the bodies whose [query] is not a
    non-empty string: for a parsed body, the route sends "Query is required
    and must be a string" if and only if it does. *)
Theorem invalid_request_iff (now : Z) (body : JsValue) :
  body <> JUndefined -> body <> JNull ->
  (delivered (handle now body) = Some invalid_request
   <-> ~ exists s, member body "query" = JStr s /\ s <> EmptyString).
Proof.
  intros H1 H2. rewrite (invalid_request_iff_check now body H1 H2).
  split.
  - intros Hq Hex. apply query_check in Hex. congruence.
  - intro N.
    destruct (negb (truthy (member body "query"))
              || negb (String.eqb (typeof (member body "query")) "string"))
      eqn:Hq; [reflexivity | ].
    apply query_check in Hq. now elim N.
Qed.

(** The response the client has is the relayed result or one of the
    route's failures. *)
Lemma delivered_cases
  (now : Z) (body : JsValue) (events : list (Z * ProcEvent)) (r : Response) :
  delivered (settle (run now body events)) = Some r ->
  (exists result, r = success result) \/ Failure now body events r.
Proof.
  intro H.
  destruct (Z.eq_dec (code r) 200) as [C | C].
  - left. destruct r as [c p]. cbn in C. subst c. now exists p.
  - right.
    apply (sent_failure JSON_parse Buffer_toString NumberToString
             StringToNumber round now body events r); [ | exact C].
    unfold delivered in H.
    destruct (calls (settle (run now body events))) as [| r' rest];
      [discriminate H | ].
    injection H as ->. now left.
Qed.

(** X11. A request without a parsed body ([req.body] is [undefined] or
    [null]) makes the destructuring throw: the route's [catch] answers 500
    "Internal server error" with the exception's message, and no child is
    spawned. *)
Theorem missing_body_answered_500
  (now : Z) (body : JsValue) (events : list (Z * ProcEvent)) :
  body = JUndefined \/ body = JNull ->
  exists msg,
    calls (settle (run now body events)) = [internal_error msg]
    /\ includes "Cannot destructure property 'query'" msg = true
    /\ spawned (settle (run now body events)) = None.
Proof.
  intros [-> | ->]; eexists; unfold Server.run;
    change (handle now JUndefined)
      with (rejected (internal_error
        ("Cannot destructure property 'query' of 'req.body' "
         ++ "as it is undefined.")));
    change (handle now JNull)
      with (rejected (internal_error
        "Cannot destructure property 'query' of 'req.body' as it is null."));
    rewrite steps_rejected, settle_rejected; repeat split.
Qed.

End Route_properties.

(** * Further properties of the form *)

Section Form_properties.
Import Client.

Variable NumberToString : Q -> string.

Local Notation handleSubmit := (Client.handleSubmit NumberToString).

Lemma not_blank (q : string) :
  trim q <> EmptyString -> String.eqb (trim q) EmptyString = false.
Proof.
  intro H. destruct (String.eqb_spec (trim q) EmptyString); [now elim H | easy].
Qed.

(** X12. A submit with a query that is not blank posts exactly one request,
    with the query as typed (not trimmed), and the route accepts that
    request whenever it arrives: the child is spawned with depth
    "standard", 15 sources and no contact info, under a deadline of 120
    seconds. *)
Theorem posted_request_is_run
  (StringToNumber : string -> option Q) (round : Q -> option Q) (now : Z)
  (outcome : FetchOutcome) (form : State) :
  trim (query form) <> EmptyString ->
  exists body,
    posted (handleSubmit outcome form) = posted form ++ [body]
    /\ member body "query" = JStr (query form)
    /\ Server.handle NumberToString StringToNumber round now body
       = Outcome.running
           (Server.mkRequest (JStr (query form))
              (Server.mkOptions (JStr "standard") (JNum (15 # 1))
                 (JBool false) (JNum (120 # 1))))
           (now + 120000) EmptyString EmptyString.
Proof.
  intro H. exists (request_body (query form)).
  split; [ | split; [reflexivity | now apply posted_request_accepted]].
  unfold Client.handleSubmit. rewrite (not_blank _ H).
  match goal with
  | |- context [Client.receive ?f ?o ?st] =>
      destruct (receive_cases f o st) as [[thrown ->] | [v ->]]
  end; reflexivity.
Qed.

(** X13. After a submit the form is no longer loading, and it holds a
    result exactly when the request succeeded: a response that is ok and
    whose body parses leaves that body as the result with status
    [complete]; anything else leaves no result, not even the one of an
    earlier request, and status [error]. *)
Theorem submit_result_matches_status
  (outcome : FetchOutcome) (form : State) :
  trim (query form) <> EmptyString ->
  let after := handleSubmit outcome form in
  isLoading after = false
  /\ ((exists v,
          outcome = Resolved true (Normal v)
          /\ result after = Some v
          /\ option_map Schema.status (Client.status after) = Some complete)
      \/ ((forall v, outcome <> Resolved true (Normal v))
          /\ result after = None
          /\ option_map Schema.status (Client.status after)
             = Some Schema.error)).
Proof.
  intros H after. subst after. unfold Client.handleSubmit.
  rewrite (not_blank _ H). split.
  - match goal with
    | |- context [Client.receive ?f ?o ?st] =>
        destruct (receive_cases f o st) as [[thrown ->] | [v ->]]
    end; reflexivity.
  - destruct outcome as [reason | [|] [v | e]]; cbn.
    + right. repeat split. discriminate.
    + left. exists v. repeat split.
    + right. repeat split. discriminate.
    + right. split; [discriminate | ].
      destruct (get v "error") as [msg | e]; [ | split; reflexivity].
      destruct (Js.ToString NumberToString _); split; reflexivity.
    + right. repeat split. discriminate.
Qed.

(** X24. The form and the route disagree on a query of white space: the
    form does not post it, [handleSubmit] returns at once with no request
    and no status, while the route, had it received the request the form
    would have posted, runs it: the child is spawned with that query and
    nothing is sent. *)
Theorem blank_query_blocked_by_the_form_only
  (StringToNumber : string -> option Q) (round : Q -> option Q) (now : Z)
  (outcome : FetchOutcome) (form : State) :
  query form <> EmptyString ->
  forallb is_white_space (list_ascii_of_string (query form)) = true ->
  handleSubmit outcome form = form
  /\ exists rd,
       Server.spawned
         (Server.handle NumberToString StringToNumber round now
            (request_body (query form))) = Some rd
       /\ Server.query rd = JStr (query form)
       /\ Server.delivered
            (Server.handle NumberToString StringToNumber round now
               (request_body (query form))) = None.
Proof.
  intros Hq W. split.
  - unfold Client.handleSubmit. apply trim_empty_iff in W. now rewrite W.
  - pose proof (handle_spawns NumberToString StringToNumber round now
                  (request_body (query form)) (query form) eq_refl Hq
                  ltac:(discriminate)) as A.
    cbv zeta in A. cbn in A. rewrite A. eexists. repeat split.
Qed.

End Form_properties.

(** * The form and the route together *)

Section Round_trip.
Import Server Outcome.

Variable JSON_parse : string -> Completion JsValue.
Variable Buffer_toString : Buffer -> string.
Variable NumberToString : Q -> string.
Variable StringToNumber : string -> option Q.
Variable round : Q -> option Q.

Local Notation run :=
  (Server.run JSON_parse Buffer_toString NumberToString StringToNumber round).
Local Notation handleSubmit := (Client.handleSubmit NumberToString).
Local Notation Failure :=
  (Outcome.Failure JSON_parse Buffer_toString NumberToString StringToNumber
     round).

(** What the form makes of a failure of the route. *)
Lemma submit_failure (now : Z) (body : JsValue)
  (events : list (Z * ProcEvent)) (r : Response) (form : Client.State) :
  Failure now body events r ->
  trim (Client.query form) <> EmptyString ->
  exists msg,
    In msg error_messages
    /\ member (payload r) "error" = JStr msg
    /\ Client.result (handleSubmit (Link.fetched r) form) = None
    /\ Client.status (handleSubmit (Link.fetched r) form)
       = Some (mkStatus Schema.error msg None).
Proof.
  intros F H. unfold Client.handleSubmit. rewrite (not_blank _ H).
  destruct F as [ | | | e P | v P | e st T]; eexists;
    (split; [ | split; [reflexivity | ]]);
    try (cbn; auto 6; fail);
    unfold Link.fetched, process_failed, or_else;
    try destruct (truthy _); split; reflexivity.
Qed.

(** X14. The form shows what the route answered, and of a failure only its
    fixed message: when the response is the 200, the form's result is the
    relayed value, as JSON carries it, and its status [complete];
    otherwise the form has no result and its status is [error] with the
    [error] member of the response, one of the route's five messages.  The
    [details] member, with the child's stderr, is never shown. *)
Theorem route_response_in_form
  (now : Z) (body : JsValue) (events : list (Z * ProcEvent)) (r : Response)
  (form : Client.State) :
  delivered (settle (run now body events)) = Some r ->
  trim (Client.query form) <> EmptyString ->
  let after := handleSubmit (Link.fetched r) form in
  (exists result,
      r = success result
      /\ Client.result after = Some (wire result)
      /\ Client.status after
         = Some (mkStatus complete "Research complete!" None))
  \/ (exists msg,
         In msg error_messages
         /\ member (payload r) "error" = JStr msg
         /\ Client.result after = None
         /\ Client.status after = Some (mkStatus Schema.error msg None)).
Proof.
  intros D H after. subst after.
  destruct (delivered_cases JSON_parse Buffer_toString NumberToString
              StringToNumber round now body events r D)
    as [[v ->] | F].
  - left. exists v. unfold Client.handleSubmit. rewrite (not_blank _ H).
    repeat split.
  - right. exact (submit_failure now body events r form F H).
Qed.

End Round_trip.


(** * What the page shows *)

Lemma is_string_inv (v : JsValue) :
  is_string v = true -> exists s, v = JStr s.
Proof. destruct v; try discriminate. intros _. now exists s. Qed.

Lemma is_number_inv (v : JsValue) :
  is_number v = true ->
  (exists q, v = JNum q) \/ (exists negative, v = JInf negative).
Proof.
  destruct v; try discriminate; intros _;
    [left; now exists q | right; now exists negative].
Qed.

Lemma split_lines_not_nil (s : string) : View.split_lines s <> [].
Proof.
  induction s as [| c s IH]; cbn; [discriminate | ].
  destruct (Ascii.eqb c View.newline); [discriminate | ].
  destruct (View.split_lines s); [now elim IH | discriminate].
Qed.

(** Joining the pieces of [split('\n')] with newlines gives the string
    back, and no piece contains a newline. *)
Lemma split_lines_round_trip (s : string) :
  View.join_lines (View.split_lines s) = s
  /\ Forall (fun piece => ~ In View.newline (list_ascii_of_string piece))
       (View.split_lines s).
Proof.
  induction s as [| c s [IHj IHf]]; cbn.
  - split; [reflexivity | ]. repeat constructor. intros [].
  - destruct (Ascii.eqb_spec c View.newline) as [-> | Hc].
    + split.
      * pose proof (split_lines_not_nil s) as N.
        destruct (View.split_lines s) as [| p ps]; [now elim N | ].
        cbn [View.join_lines append]. cbn in IHj |- *. now rewrite IHj.
      * constructor; [intros [] | exact IHf].
    + pose proof (split_lines_not_nil s) as N.
      destruct (View.split_lines s) as [| p ps]; [now elim N | ].
      split.
      * destruct ps as [| p' ps']; cbn in IHj |- *; now rewrite IHj.
      * inversion IHf as [| x l Hp Hps]; subst.
        constructor; [ | exact Hps].
        cbn. intros [E | I]; [now elim Hc | now apply Hp].
Qed.

(** A line is one piece of [split('\n')]. *)
Lemma split_lines_line (line : string) :
  ~ In View.newline (list_ascii_of_string line) ->
  View.split_lines line = [line].
Proof.
  induction line as [| c line IH]; cbn; [reflexivity | ].
  intro H. destruct (Ascii.eqb_spec c View.newline) as [-> | _].
  - elim H. now left.
  - rewrite IH; [reflexivity | ]. intro I. apply H. now right.
Qed.

Lemma split_lines_cons (line rest : string) :
  ~ In View.newline (list_ascii_of_string line) ->
  View.split_lines (line ++ String View.newline rest)
  = line :: View.split_lines rest.
Proof.
  induction line as [| c line IH]; cbn [append list_ascii_of_string].
  - intros _. cbn. reflexivity.
  - intro H. cbn [View.split_lines].
    destruct (Ascii.eqb_spec c View.newline) as [-> | _].
    + elim H. now left.
    + rewrite IH; [reflexivity | ]. intro I. apply H. now right.
Qed.

(** [split('\n')] gives back the lines that were joined. *)
Lemma split_join_lines (lines : list string) :
  lines <> [] ->
  Forall (fun line => ~ In View.newline (list_ascii_of_string line)) lines ->
  View.split_lines (View.join_lines lines) = lines.
Proof.
  induction lines as [| line [| next more] IH]; intros N F.
  - now elim N.
  - cbn. inversion F; subst. now apply split_lines_line.
  - inversion F as [| x l Hline Hrest]; subst.
    change (View.join_lines (line :: next :: more))
      with (line ++ String View.newline (View.join_lines (next :: more)))%string.
    rewrite split_lines_cons by exact Hline.
    rewrite IH; [reflexivity | discriminate | exact Hrest].
Qed.

(** X15. The paragraphs of an answer are its lines that are not blank, all
    of them and in order: for an answer that is the lines [lines] joined
    by newlines, the page has one paragraph for each line that is not
    white space only, with the text of the line, and none for the
    others. *)
Theorem rendered_paragraphs_are_the_nonblank_lines
  (answer : string) (lines : list string) :
  lines <> [] ->
  Forall (fun line => ~ In View.newline (list_ascii_of_string line)) lines ->
  View.join_lines lines = answer ->
  View.rendered_paragraphs answer
  = filter
      (fun line =>
         negb (forallb is_white_space (list_ascii_of_string line)))
      lines.
Proof.
  intros N F <-. unfold View.rendered_paragraphs.
  rewrite (split_join_lines lines N F).
  apply filter_ext. intro line. unfold View.blank. f_equal.
  destruct (forallb is_white_space (list_ascii_of_string line)) eqn:W.
  - apply trim_empty_iff in W. now rewrite W.
  - destruct (String.eqb_spec (trim line) EmptyString) as [E | E];
      [ | reflexivity].
    apply trim_empty_iff in E. congruence.
Qed.

Section Page_properties.
Import Client View.

Variable toFixed1 : Q -> string.
Variable round_percent : Q -> string.
Variable percent_other : JsValue -> Completion string.
Variable NumberToString : Q -> string.

Local Notation render := (View.render toFixed1 round_percent percent_other).
Local Notation render_results :=
  (View.render_results toFixed1 round_percent percent_other).
Local Notation render_sources :=
  (View.render_sources round_percent percent_other).
Local Notation render_source :=
  (View.render_source round_percent percent_other).
Local Notation handleSubmit := (Client.handleSubmit NumberToString).

(** X16. When a submit has settled and the page renders, the page shows no
    welcome text and no busy state: the input is enabled again, and the
    status line has a red or a green dot, never the pulsing one, and no
    progress bar.  With the red dot there is no Results block and the
    example queries are offered again. *)
Theorem settled_page
  (outcome : FetchOutcome) (form : State) (page : Page) :
  trim (query form) <> EmptyString ->
  render (handleSubmit outcome form) = Normal page ->
  welcome page = false
  /\ input_disabled page = false
  /\ exists line,
       status_line page = Some line
       /\ (dot line = Red \/ dot line = Green)
       /\ bar line = NoProgress
       /\ (dot line = Red ->
           results page = NoResults
           /\ examples page = Some exampleQueries).
Proof.
  intros H. unfold Client.handleSubmit. rewrite (not_blank _ H).
  match goal with
  | |- context [Client.receive ?f ?o ?st] =>
      destruct (receive_cases f o st) as [[thrown ->] | [v ->]]
  end.
  - cbn. intro E. injection E as <-. cbn.
    split; [reflexivity | ]. split; [reflexivity | ].
    eexists. split; [reflexivity | ]. cbn. auto.
  - unfold View.render. cbn [result setIsLoading setStatus setResult
                               isLoading status query shown].
    destruct (truthy v).
    + destruct (render_results v) as [view | e]; cbn; [ | discriminate].
      intro E. injection E as <-. cbn. repeat split.
      eexists. split; [reflexivity | ]. cbn.
      split; [now right | ]. split; [reflexivity | discriminate].
    + cbn. intro E. injection E as <-. cbn. repeat split.
      eexists. split; [reflexivity | ]. cbn.
      split; [now right | ]. split; [reflexivity | discriminate].
Qed.

Lemma typed_sources_render (items : list JsValue) :
  forallb is_ResearchSource items = true ->
  exists cs,
    for_each render_source items = Normal cs
    /\ length cs = length items
    /\ forallb card_children_valid cs = true.
Proof.
  induction items as [| source items IH]; cbn [forallb].
  - intros _. exists []. repeat split.
  - intro H. apply andb_prop in H as [Hs Hrest].
    destruct (IH Hrest) as [cs [E [L V]]].
    destruct source; try discriminate Hs.
    unfold is_ResearchSource in Hs.
    repeat (apply andb_prop in Hs as [Hs ?]).
    repeat match goal with
           | H : is_string _ = true |- _ =>
               apply is_string_inv in H as [? H]
           end.
    match goal with
    | H : is_number (assoc "relevance_score" fields) = true |- _ =>
        apply is_number_inv in H as [[? H] | [? H]]
    end;
      (eexists; cbn [for_each]; unfold View.render_source at 1;
       cbn [get member and_then];
       repeat match goal with
              | H : assoc _ fields = _ |- _ => rewrite H
              end;
       cbn [percent and_then]; rewrite E; cbn [and_then];
       split; [reflexivity | ]; cbn; rewrite L, V; split; reflexivity).
Qed.

(** X17. A result that has the members [interface ResearchResult] declares,
    with their types, always renders: the page has the Results block with
    the elapsed time, the paragraphs of the answer and one card per source,
    and neither the example queries nor the welcome text. *)
Theorem typed_result_renders (st : State) (v : JsValue) :
  result st = Some v ->
  is_ResearchResult v = true ->
  exists page view,
    render st = Normal page
    /\ results page = Results view
    /\ (forall s, member v "answer" = JStr s ->
        paragraphs view = rendered_paragraphs s)
    /\ (forall items, member v "sources" = JArr items ->
        length (cards view) = length items)
    /\ examples page = None
    /\ welcome page = false.
Proof.
  intros Hr Hv. destruct v; try discriminate Hv.
  unfold is_ResearchResult in Hv.
  repeat (apply andb_prop in Hv as [Hv ?]).
  apply is_string_inv in Hv as [q Hq].
  match goal with
  | H : is_string (assoc "answer" _) = true |- _ =>
      apply is_string_inv in H as [answer Ha]
  end.
  match goal with
  | H : is_array_of is_ResearchSource _ = true |- _ =>
      unfold is_array_of in H;
      destruct (assoc "sources" fields) as [| | | | | | items |] eqn:Hs;
      try discriminate H; apply typed_sources_render in H as [cs [Ec [L V]]]
  end.
  match goal with
  | H : is_ResearchMetadata _ = true |- _ =>
      unfold is_ResearchMetadata in H;
      destruct (assoc "research_metadata" fields)
        as [| | | | | | | meta] eqn:Hm;
      try discriminate H;
      repeat (apply andb_prop in H as [H ?])
  end.
  match goal with
  | H : is_number (assoc "research_time_seconds" meta) = true |- _ =>
      apply is_number_inv in H as [[seconds Ht] | [negative Ht]]
  end;
    (eexists; eexists;
     unfold View.render; rewrite Hr; cbn [truthy];
     unfold View.render_results, View.render_time, View.render_answer,
       View.render_sources;
     cbn [get member and_then]; rewrite Hm; cbn [get member and_then];
     rewrite Ht, Ha, Hs; cbn [and_then]; rewrite Ec; cbn [and_then];
     rewrite V; cbn [and_then shown truthy];
     split; [reflexivity | ]; cbn;
     split; [reflexivity | ];
     split; [intros s E; now injection E as <- | ];
     split; [intros l E; injection E as <-; exact L | ];
     split; reflexivity).
Qed.

(** X18. A result without a numeric
    [research_metadata.research_time_seconds], without a string [answer]
    or without an array of [sources] makes the render throw a [TypeError]:
    nothing checks the value the route relayed before the page reads
    it. *)
Theorem untyped_result_throws (st : State) (v : JsValue) :
  result st = Some v ->
  truthy v = true ->
  typeof (member (member v "research_metadata") "research_time_seconds")
  <> "number"
  \/ (forall s, member v "answer" <> JStr s)
  \/ (forall items, member v "sources" <> JArr items) ->
  exists e, render st = Throw e /\ err_name e = "TypeError".
Proof.
  intros Hr Ht H. unfold View.render. rewrite Hr, Ht.
  assert (G : forall k, get v k = Normal (member v k)).
  { intro k. destruct v; try reflexivity; discriminate Ht. }
  assert (T : (exists e, render_time toFixed1 v = Throw e
                         /\ err_name e = "TypeError")
              \/ (exists label,
                     typeof (member (member v "research_metadata")
                               "research_time_seconds") = "number"
                     /\ render_time toFixed1 v = Normal label)).
  { unfold View.render_time. rewrite G. cbn [and_then].
    destruct (member v "research_metadata") eqn:Hm;
      try (left; eexists; split; reflexivity);
      cbn [get member and_then];
      match goal with
      | |- context [match ?x with JNum _ => _ | _ => _ end] =>
          destruct x eqn:Hx
      end;
      try (left; eexists; split; reflexivity);
      right; eexists; split; reflexivity. }
  unfold View.render_results.
  destruct T as [[e [-> N]] | [label [Hq ->]]];
    [exists e; split; [reflexivity | exact N] | ].
  cbn [and_then].
  destruct H as [H | H]; [now elim H | ].
  unfold View.render_answer. rewrite G. cbn [and_then].
  destruct (member v "answer") eqn:Ha;
    try (eexists; split; reflexivity).
  cbn [and_then].
  destruct H as [H | H]; [now elim (H s) | ].
  unfold View.render_sources. rewrite G. cbn [and_then].
  destruct (member v "sources") eqn:Hs;
    try (eexists; split; reflexivity).
  now elim (H items).
Qed.

End Page_properties.

(** * [researchQuerySchema] *)

Section Schema_properties.
Import QuerySchema.

Lemma parse_query_ok (v : JsValue) (q : string) :
  parse_query v = inr q <-> v = JStr q /\ q <> EmptyString.
Proof.
  unfold parse_query. split.
  - destruct v; try discriminate.
    destruct s as [| c s]; cbn; [discriminate | ].
    intro H. injection H as <-. split; [reflexivity | discriminate].
  - intros [-> Hq]. destruct q as [| c q]; [now elim Hq | reflexivity].
Qed.

Lemma safeParse_ok (input : JsValue) (r : ResearchQuery) :
  safeParse input = inr r ->
  exists fields,
    input = JObj fields
    /\ parse_query (assoc "query" fields) = inr (query r)
    /\ parse_language (assoc "language" fields) = inr (language r)
    /\ parse_gdpr_mode (assoc "gdpr_mode" fields) = inr (gdpr_mode r).
Proof.
  destruct input; try discriminate. cbn [safeParse]. intro H.
  exists fields. split; [reflexivity | ].
  destruct (parse_query (assoc "query" fields)) as [iq | q];
    destruct (parse_language (assoc "language" fields)) as [il | l];
    destruct (parse_gdpr_mode (assoc "gdpr_mode" fields)) as [ig | g];
    try discriminate H.
  injection H as <-. repeat split.
Qed.

(** X19. What the schema accepts it accepts again unchanged: parsing the
    JSON form of a parsed [ResearchQuery] gives the same [ResearchQuery],
    defaults included. *)
Theorem schema_round_trip (input : JsValue) (r : ResearchQuery) :
  safeParse input = inr r -> safeParse (to_json r) = inr r.
Proof.
  intro H. apply safeParse_ok in H as [fields [_ [Hq _]]].
  apply parse_query_ok in Hq as [_ Hq].
  destruct r as [q l g]. cbn in Hq |- *.
  destruct q as [| c q]; [now elim Hq | reflexivity].
Qed.

(** X20. The schema and the route's own check agree on the query: for an
    object body whose [language] and [gdpr_mode] are absent or of the right
    type, [researchQuerySchema] accepts the body exactly when the route
    does not answer it with the 400; in particular both accept a query of
    white space. *)
Theorem schema_agrees_with_route
  (NumberToString : Q -> string) (StringToNumber : string -> option Q)
  (round : Q -> option Q) (now : Z) (fields : list (string * JsValue)) :
  (exists l, parse_language (assoc "language" fields) = inr l) ->
  (exists g, parse_gdpr_mode (assoc "gdpr_mode" fields) = inr g) ->
  ((exists r, safeParse (JObj fields) = inr r)
   <-> Server.delivered
         (Server.handle NumberToString StringToNumber round now
            (JObj fields))
       <> Some Outcome.invalid_request).
Proof.
  intros [l Hl] [g Hg].
  rewrite (invalid_request_iff_check NumberToString StringToNumber round
             now (JObj fields))
    by discriminate.
  cbn [member safeParse]. rewrite Hl, Hg. split.
  - intros [r H].
    destruct (parse_query (assoc "query" fields)) as [iq | q] eqn:Hq;
      [discriminate H | ].
    apply parse_query_ok in Hq as [Hq Hn].
    assert (C : negb (truthy (assoc "query" fields))
                || negb (String.eqb (typeof (assoc "query" fields)) "string")
                = false) by (apply query_check; now exists q).
    rewrite C. discriminate.
  - intro H.
    destruct (negb (truthy (assoc "query" fields))
              || negb (String.eqb (typeof (assoc "query" fields)) "string"))
      eqn:Hc; [now elim H | ].
    apply query_check in Hc as [s [Hs Hn]].
    assert (Hq : parse_query (assoc "query" fields) = inr s)
      by (apply parse_query_ok; auto).
    rewrite Hq. eexists. reflexivity.
Qed.

End Schema_properties.

(** * The further properties on concrete requests *)

Section Further_examples.
Import Server Outcome Trace Sample Example.

Local Notation handle :=
  (Server.handle Sample.NumberToString Sample.StringToNumber Sample.round).
Local Notation step := (Server.step Sample.JSON_parse Sample.Buffer_toString).
Local Notation run :=
  (Server.run Sample.JSON_parse Sample.Buffer_toString Sample.NumberToString
     Sample.StringToNumber Sample.round).
Local Notation deadline :=
  (Outcome.deadline Sample.NumberToString Sample.StringToNumber
     Sample.round).
Local Notation stdout_until_close :=
  (Outcome.stdout_until_close Sample.Buffer_toString).
Local Notation stderr_until_close :=
  (Outcome.stderr_until_close Sample.Buffer_toString).
Local Notation handleSubmit := (Client.handleSubmit Sample.NumberToString).
Local Notation render :=
  (View.render Example.toFixed1 Example.round_percent Example.percent_other).

(** X3 on a request whose child closed in time. *)
Lemma second_send_only_after_timeout_witness :
  (spawned (handle 0 two_seconds) = Some two_seconds_data
   /\ research_timeout (options two_seconds_data) = JNum (2 # 1)
   /\ timer (run 0 two_seconds timely_child) <> Fired)
  /\ uncaught (run 0 two_seconds timely_child) = [].
Proof.
  split; [repeat split; discriminate | ].
  apply (second_send_only_after_timeout
           Sample.JSON_parse Sample.Buffer_toString Sample.NumberToString
           Sample.StringToNumber Sample.round 0 two_seconds timely_child
           two_seconds_data (2 # 1) eq_refl eq_refl).
  discriminate.
Defined.

Lemma timely_in_time :
  Forall (fun e => fst e < deadline 0 two_seconds_data)
    (until_close timely_child).
Proof. repeat constructor. Qed.

(** X5 on a child that prints an empty object in two chunks and exits with
    code 0 at 1500 ms of 2000. *)
Lemma close_in_time_witness :
  (spawned (handle 0 two_seconds) = Some two_seconds_data
   /\ first_close timely_child = Some (1500, Some 0)
   /\ Sample.JSON_parse (stdout_until_close timely_child) = Normal (JObj []))
  /\ delivered (run 0 two_seconds timely_child) = Some (success (JObj [])).
Proof.
  split; [repeat split | ].
  destruct (close_in_time_decides_response
              Sample.JSON_parse Sample.Buffer_toString Sample.NumberToString
              Sample.StringToNumber Sample.round 0 two_seconds
              timely_child two_seconds_data (2 # 1) 1500 (Some 0)
              eq_refl eq_refl timely_in_time eq_refl)
    as [_ [_ [S _]]].
  exact (S (JObj []) eq_refl eq_refl).
Defined.

(** X6 on a child that has written to both streams and not closed. *)
Lemma running_child_witness :
  (spawned (handle 0 two_seconds) = Some two_seconds_data
   /\ first_close partial_child = None)
  /\ calls (run 0 two_seconds partial_child) = []
  /\ error (run 0 two_seconds partial_child) = "searching".
Proof.
  split; [repeat split | ].
  destruct (running_child_only_accumulates
              Sample.JSON_parse Sample.Buffer_toString Sample.NumberToString
              Sample.StringToNumber Sample.round 0 two_seconds
              partial_child two_seconds_data (2 # 1) eq_refl eq_refl)
    as [C [_ [_ [_ E]]]]; [repeat constructor | reflexivity | ].
  split; [exact C | exact E].
Defined.

(** X23 on a child that closes half a second after a two-second
    deadline. *)
Lemma overdue_request_witness :
  (spawned (handle 0 two_seconds) = Some two_seconds_data
   /\ deadline 0 two_seconds_data = 2000
   /\ first_close slow_child = Some (2500, Some 0))
  /\ killed (settle (run 0 two_seconds slow_child)) = true
  /\ delivered (settle (run 0 two_seconds slow_child))
     = Some request_timeout.
Proof.
  split; [repeat split | ].
  destruct (overdue_request_killed_and_answered_408
              Sample.JSON_parse Sample.Buffer_toString Sample.NumberToString
              Sample.StringToNumber Sample.round 0
              two_seconds slow_child two_seconds_data (2 # 1)
              eq_refl eq_refl)
    as [K [D _]].
  - intros t c [H | [H | []]]; inversion H. discriminate.
  - split; assumption.
Defined.

(** X10 on a body with an empty query. *)
Lemma invalid_request_iff_witness :
  (empty_query <> JUndefined /\ empty_query <> JNull)
  /\ (delivered (handle 0 empty_query) = Some invalid_request
      <-> ~ exists s, member empty_query "query" = JStr s
                      /\ s <> EmptyString).
Proof.
  split; [split; discriminate | ].
  apply (invalid_request_iff Sample.NumberToString Sample.StringToNumber
           Sample.round 0 empty_query);
    discriminate.
Defined.

(** X11 on a request without a body. *)
Lemma missing_body_witness :
  (JUndefined = JUndefined \/ JUndefined = JNull)
  /\ exists msg,
       calls (settle (run 0 JUndefined quick_child)) = [internal_error msg]
       /\ includes "Cannot destructure property 'query'" msg = true
       /\ spawned (settle (run 0 JUndefined quick_child)) = None.
Proof.
  split; [now left | ].
  apply (missing_body_answered_500 Sample.JSON_parse Sample.Buffer_toString
           Sample.NumberToString Sample.StringToNumber Sample.round
           0 JUndefined quick_child).
  now left.
Defined.

(** X12 on a query with spaces around it. *)
Lemma posted_request_witness :
  trim (Client.query (Client.initial " q ")) <> EmptyString
  /\ exists body,
       Client.posted
         (handleSubmit (Client.Rejected Client.ThrownOther)
            (Client.initial " q "))
       = [body]
       /\ member body "query" = JStr " q ".
Proof.
  split; [discriminate | ].
  destruct (posted_request_is_run Sample.NumberToString
              Sample.StringToNumber Sample.round 0
              (Client.Rejected Client.ThrownOther)
              (Client.initial " q ") ltac:(discriminate))
    as [body [P [Q _]]].
  exists body. split; [exact P | exact Q].
Defined.

(** X13 on a form that held a result and whose next request fails. *)
Lemma submit_result_witness :
  trim (Client.query (form_with typed_result)) <> EmptyString
  /\ Client.result
       (handleSubmit (Client.Rejected Client.ThrownOther)
          (form_with typed_result))
     = None.
Proof.
  split; [discriminate | ].
  destruct (submit_result_matches_status Sample.NumberToString
              (Client.Rejected Client.ThrownOther) (form_with typed_result)
              ltac:(discriminate))
    as [_ [[v [E _]] | [_ [R _]]]]; [discriminate E | exact R].
Defined.

(** X24 on a query of three spaces. *)
Lemma blank_query_witness :
  (Client.query (Client.initial "   ") <> EmptyString
   /\ forallb is_white_space (list_ascii_of_string "   ") = true)
  /\ handleSubmit (Client.Resolved true (Normal (JObj [])))
       (Client.initial "   ")
     = Client.initial "   "
  /\ exists rd,
       spawned (handle 0 (Client.request_body "   ")) = Some rd
       /\ query rd = JStr "   ".
Proof.
  split; [split; [discriminate | reflexivity] | ].
  destruct (blank_query_blocked_by_the_form_only Sample.NumberToString
              Sample.StringToNumber Sample.round 0
              (Client.Resolved true (Normal (JObj [])))
              (Client.initial "   ") ltac:(discriminate) eq_refl)
    as [B [rd [S [Q _]]]].
  split; [exact B | ]. exists rd. split; [exact S | exact Q].
Defined.

(** X14 on a request that timed out. *)
Lemma route_response_in_form_witness :
  (delivered (settle (run 0 two_seconds slow_child)) = Some request_timeout
   /\ trim (Client.query (Client.initial "x")) <> EmptyString)
  /\ Client.status
       (handleSubmit (Link.fetched request_timeout) (Client.initial "x"))
     = Some (mkStatus Schema.error "Research request timed out" None).
Proof.
  split; [split; [reflexivity | discriminate] | ].
  destruct (route_response_in_form
              Sample.JSON_parse Sample.Buffer_toString Sample.NumberToString
              Sample.StringToNumber Sample.round
              0 two_seconds slow_child request_timeout (Client.initial "x")
              eq_refl ltac:(discriminate))
    as [[v [E _]] | [msg [_ [M [_ S]]]]]; [discriminate E | ].
  injection M as <-. exact S.
Defined.

Lemma spaced_lines_are_lines :
  Forall (fun line => ~ In View.newline (list_ascii_of_string line))
    spaced_lines.
Proof.
  repeat constructor; intro H; cbn in H;
    repeat (destruct H as [H | H]; [discriminate H | ]); exact H.
Qed.

(** X15 on an answer of two paragraphs with a line of spaces between
    them. *)
Lemma rendered_paragraphs_witness :
  spaced_lines <> []
  /\ View.rendered_paragraphs (View.join_lines spaced_lines)
     = ["Paris is the capital [1]."; "It has been since 987."].
Proof.
  split; [discriminate | ].
  rewrite (rendered_paragraphs_are_the_nonblank_lines
             (View.join_lines spaced_lines) spaced_lines
             ltac:(discriminate) spaced_lines_are_lines eq_refl).
  reflexivity.
Defined.

(** X16 on a request that fetch rejected. *)
Lemma settled_page_witness :
  (trim (Client.query (Client.initial "x")) <> EmptyString
   /\ exists page,
        render (handleSubmit (Client.Rejected Client.ThrownOther)
                  (Client.initial "x")) = Normal page)
  /\ forall page,
       render (handleSubmit (Client.Rejected Client.ThrownOther)
                 (Client.initial "x")) = Normal page ->
       View.welcome page = false.
Proof.
  split; [split; [discriminate | eexists; reflexivity] | ].
  intros page H.
  apply (settled_page Example.toFixed1 Example.round_percent
           Example.percent_other Sample.NumberToString
           (Client.Rejected Client.ThrownOther) (Client.initial "x") page
           ltac:(discriminate) H).
Defined.

(** X17 on a result with one source and an answer of two lines. *)
Lemma typed_result_renders_witness :
  (Client.result (form_with typed_result) = Some typed_result
   /\ is_ResearchResult typed_result = true)
  /\ exists page view,
       render (form_with typed_result) = Normal page
       /\ View.results page = View.Results view
       /\ length (View.cards view) = 1%nat
       /\ length (View.paragraphs view) = 2%nat.
Proof.
  split; [split; reflexivity | ].
  destruct (typed_result_renders Example.toFixed1 Example.round_percent
              Example.percent_other (form_with typed_result) typed_result
              eq_refl eq_refl)
    as [page [view [R [V [P [C _]]]]]].
  exists page, view. split; [exact R | ]. split; [exact V | ].
  split; [exact (C _ eq_refl) | ].
  rewrite (P _ eq_refl). reflexivity.
Defined.

(** X18 on an empty object. *)
Lemma untyped_result_throws_witness :
  (Client.result (form_with (JObj [])) = Some (JObj [])
   /\ truthy (JObj []) = true)
  /\ exists e,
       render (form_with (JObj [])) = Throw e /\ err_name e = "TypeError".
Proof.
  split; [split; reflexivity | ].
  apply (untyped_result_throws Example.toFixed1 Example.round_percent
           Example.percent_other (form_with (JObj [])) (JObj [])
           eq_refl eq_refl).
  left. discriminate.
Defined.

(** X19 on a body with the query only. *)
Lemma schema_round_trip_witness :
  QuerySchema.safeParse (JObj [("query", JStr "x")])
  = inr (QuerySchema.mkQuery "x" "en" false)
  /\ QuerySchema.safeParse
       (QuerySchema.to_json (QuerySchema.mkQuery "x" "en" false))
     = inr (QuerySchema.mkQuery "x" "en" false).
Proof.
  split; [reflexivity | ].
  apply (schema_round_trip (JObj [("query", JStr "x")])).
  reflexivity.
Defined.

(** X20 on a query of three spaces. *)
Lemma schema_agrees_witness :
  ((exists l, QuerySchema.parse_language
                (assoc "language" [("query", JStr "   ")]) = inr l)
   /\ (exists g, QuerySchema.parse_gdpr_mode
                   (assoc "gdpr_mode" [("query", JStr "   ")]) = inr g))
  /\ ((exists r, QuerySchema.safeParse blank_query = inr r)
      <-> delivered (handle 0 blank_query) <> Some invalid_request).
Proof.
  split; [split; eexists; reflexivity | ].
  apply (schema_agrees_with_route Sample.NumberToString
           Sample.StringToNumber Sample.round 0
           [("query", JStr "   ")]); eexists; reflexivity.
Defined.

End Further_examples.
